(** * Textures: a shallow embedding of [main.cpp]

    The program is a linear sequence of calls into GLFW, glad, stb_image and
    OpenGL, followed by a redraw loop.  The embedding keeps that shape: every
    library call is an operation of a small state monad over a [World] that
    records the calls issued (in order) together with the part of the
    library state the program can observe or influence (close flag, viewport,
    live object names, uploaded texture images).  Whatever the libraries
    answer is read from an environment [Env]. *)

From Stdlib Require Import ZArith QArith List String Bool Lia Lqa.
Import ListNotations.
Local Open Scope Z_scope.

(** ** Constants of the library headers *)

(** The symbolic constants of [glfw3.h] the program mentions. *)
Inductive GLFWconst : Type :=
| GLFW_CONTEXT_VERSION_MAJOR
| GLFW_CONTEXT_VERSION_MINOR
| GLFW_OPENGL_PROFILE
| GLFW_OPENGL_FORWARD_COMPAT
| GLFW_OPENGL_CORE_PROFILE
| GLFW_KEY_ESCAPE.

(** What [glfwGetKey] can answer. *)
Inductive KeyState : Type := GLFW_RELEASE | GLFW_PRESS.

(** The symbolic constants of [glad.h] the program mentions, and the three
    other wrap modes and the other filter its comments describe. *)
Inductive GLenum : Type :=
| GL_TRUE | GL_FALSE
| GL_TEXTURE_2D
| GL_TEXTURE_WRAP_S | GL_TEXTURE_WRAP_T
| GL_TEXTURE_MIN_FILTER | GL_TEXTURE_MAG_FILTER
| GL_REPEAT | GL_MIRRORED_REPEAT | GL_CLAMP_TO_EDGE | GL_CLAMP_TO_BORDER
| GL_NEAREST | GL_LINEAR
| GL_RGB | GL_UNSIGNED_BYTE | GL_UNSIGNED_INT | GL_FLOAT
| GL_TRIANGLES | GL_STATIC_DRAW
| GL_ARRAY_BUFFER | GL_ELEMENT_ARRAY_BUFFER
| GL_COLOR_BUFFER_BIT.

(** The value argument of [glfwWindowHint]: a number or a constant. *)
Inductive HintValue : Type :=
| HintInt (n : Z)
| HintGLFW (c : GLFWconst)
| HintGL (e : GLenum).

(** ** Data *)

(** A [float] is recorded as the rational number it denotes.  The literals
    of the vertex data (0, 0.5, -0.5 and 1) are binary fractions and are
    written as such; every other [float] of the program (the clear colour,
    the time passed to the shader) is obtained with [to_float] below. *)
Definition float : Type := Q.

(** A [double], likewise, is the rational number it denotes. *)
Definition double : Type := Q.

(** [2 ^ e], for any integer [e]. *)
Definition pow2 (e : Z) : Q :=
  if 0 <=? e then inject_Z (2 ^ e) else 1 # Z.to_pos (2 ^ (- e)).

(** The integer [e] with [2 ^ e <= x < 2 ^ (e + 1)], for [x > 0]. *)
Definition floor_log2 (x : Q) : Z :=
  let e := Z.log2 (Qnum x) - Z.log2 (Z.pos (Qden x)) in
  if Qle_bool (pow2 e) x then e else e - 1.

(** The integer nearest to [y >= 0], the even one of the two when [y] lies
    half way. *)
Definition round_even (y : Q) : Z :=
  let f := Qnum y / Z.pos (Qden y) in
  let r := Qnum y mod Z.pos (Qden y) in
  match 2 * r ?= Z.pos (Qden y) with
  | Lt => f
  | Gt => f + 1
  | Eq => if Z.even f then f else f + 1
  end.

(** The multiple of the spacing of binary32 around [x > 0] that is nearest
    to [x]: 24 significant bits, hence a spacing of [2 ^ (e - 23)] for
    [2 ^ e <= x < 2 ^ (e + 1)], and of [2 ^ -149] below [2 ^ -126]. *)
Definition nearest_float (x : Q) : Q :=
  let e := Z.max (floor_log2 x) (-126) in
  (inject_Z (round_even (x / pow2 (e - 23))) * pow2 (e - 23))%Q.

(** The largest finite [float]. *)
Definition FLT_MAX : Q := inject_Z ((2 ^ 24 - 1) * 2 ^ 104).

(** The [float] a decimal literal with suffix [f] denotes, and the [float] a
    [double] becomes when it is passed where a [GLfloat] is expected: the
    nearest binary32 number, ties to even (IEEE 754, which OpenGL asks of
    [GLfloat], under the default rounding).  This is the conversion for
    values up to [FLT_MAX] in magnitude; beyond, C++ leaves the conversion
    undefined and nothing is claimed. *)
Definition to_float (x : Q) : float :=
  match Qnum x with
  | Z0 => 0%Q
  | Zpos _ => Qred (nearest_float x)
  | Zneg _ => Qred (- nearest_float (- x))
  end.

Arguments to_float : simpl never.

(** Pointers ([GLFWwindow*], [unsigned char*]) are addresses; [NULL] is 0. *)
Definition pointer : Type := Z.
Definition NULL : pointer := 0.

(** [sizeof(float)] and [sizeof(unsigned int)]: OpenGL fixes [GLfloat] and
    [GLuint] to 32 bits, and the program hands its arrays to OpenGL as such. *)
Definition sizeof_float : Z := 4.
Definition sizeof_uint : Z := 4.

(** The contents of a client array handed to [glBufferData]. *)
Inductive ArrayData : Type :=
| Floats (l : list float)
| UInts (l : list Z).

(** Events the window system may deliver while [glfwPollEvents] runs. *)
Inductive Event : Type :=
| FramebufferSize (width height : Z)
| WindowClose.

(** ** The calls the program can issue *)

Inductive Call : Type :=
| GlfwInit
| GlfwWindowHint (hint : GLFWconst) (value : HintValue)
| GlfwCreateWindow (width height : Z) (title : string)
| Cout (msg : string)
| GlfwTerminate
| GlfwMakeContextCurrent (window : pointer)
| GlfwSetFramebufferSizeCallback (window : pointer)
| GladLoadGLLoader
| ShaderCtor (vertexPath fragmentPath : string)
| GlGenVertexArrays (n : Z)
| GlGenBuffers (n : Z)
| GlBindVertexArray (array : Z)
| GlBindBuffer (target : GLenum) (buffer : Z)
| GlBufferData (target : GLenum) (size : Z) (data : ArrayData) (usage : GLenum)
| GlVertexAttribPointer (index size : Z) (type normalized : GLenum)
                        (stride offset : Z)
| GlEnableVertexAttribArray (index : Z)
| GlGenTextures (n : Z)
| GlBindTexture (target : GLenum) (texture : Z)
| GlTexParameteri (target pname param : GLenum)
| StbiLoad (filename : string) (desired_channels : Z)
| GlTexImage2D (target : GLenum) (level : Z) (internalformat : GLenum)
               (width height border : Z) (format type : GLenum) (data : pointer)
| GlGenerateMipmap (target : GLenum)
| StbiImageFree (data : pointer)
| GlfwWindowShouldClose (window : pointer)
| GlfwGetKey (window : pointer) (key : GLFWconst)
| GlfwSetWindowShouldClose (window : pointer) (value : bool)
| GlClearColor (r g b a : float)
| GlClear (mask : GLenum)
| ShaderUse
| ShaderGetProgram
| GlGetUniformLocation (program : Z) (name : string)
| GlfwGetTime
| GlUniform1f (location : Z) (v0 : float)
| GlDrawElements (mode : GLenum) (count : Z) (type : GLenum) (indices : Z)
| GlfwSwapBuffers (window : pointer)
| GlfwPollEvents
| GlViewport (x y width height : Z)
| GlDeleteVertexArrays (n : Z) (array : Z)
| GlDeleteBuffers (n : Z) (buffer : Z)
| GlDeleteTextures (n : Z) (texture : Z).

(** ** The environment: what the libraries answer *)

Record Env : Type := mkEnv {
  APPLE : bool;                     (* is [__APPLE__] defined *)
  createWindow_result : pointer;    (* [NULL] when the window cannot be made *)
  gladLoad_result : Z;              (* 0 when the loader fails *)
  shader_ID : Z;                    (* program handle held by [Shader] *)
  gen_VAO : Z;                      (* names handed out by [glGen*] *)
  gen_VBO : Z;
  gen_EBO : Z;
  gen_texture : Z;
  stbi_data : pointer;              (* [NULL] when decoding fails *)
  stbi_width : Z;
  stbi_height : Z;
  stbi_nrChannels : Z;
  uniform_location : Z;
  key_escape : nat -> KeyState;     (* key state after so many polls *)
  clock : nat -> double;            (* [glfwGetTime] after so many polls *)
  pending : nat -> list Event       (* events delivered by the n-th poll *)
}.

(** ** The observable library state *)

Record TexImage : Type := mkTexImage {
  tex_width : Z;
  tex_height : Z;
  tex_data : pointer
}.

Record World : Type := mkWorld {
  calls : list Call;                 (* calls issued so far, oldest first *)
  glfwAlive : bool;                  (* between glfwInit and glfwTerminate *)
  shouldClose : bool;                (* the window's close flag *)
  sizeCallback : option pointer;     (* window framebuffer_size_callback is
                                        installed on *)
  viewport : option (Z * Z * Z * Z);
  vertexArrays : list Z;             (* live object names *)
  buffers : list Z;
  textures : list Z;
  boundTexture : Z;
  images : list (Z * TexImage);      (* image of a texture name, newest first *)
  freed : list pointer;              (* pointers given to stbi_image_free *)
  polls : nat                        (* completed glfwPollEvents calls *)
}.

Definition initial : World :=
  mkWorld [] false false None None [] [] [] 0 [] [] 0%nat.

(** Field updates. *)
Definition log (c : Call) (w : World) : World :=
  mkWorld (calls w ++ [c]) (glfwAlive w) (shouldClose w) (sizeCallback w)
          (viewport w) (vertexArrays w) (buffers w) (textures w)
          (boundTexture w) (images w) (freed w) (polls w).

Definition set_glfwAlive (b : bool) (w : World) : World :=
  mkWorld (calls w) b (shouldClose w) (sizeCallback w)
          (viewport w) (vertexArrays w) (buffers w) (textures w)
          (boundTexture w) (images w) (freed w) (polls w).

Definition set_shouldClose (b : bool) (w : World) : World :=
  mkWorld (calls w) (glfwAlive w) b (sizeCallback w)
          (viewport w) (vertexArrays w) (buffers w) (textures w)
          (boundTexture w) (images w) (freed w) (polls w).

Definition set_sizeCallback (p : option pointer) (w : World) : World :=
  mkWorld (calls w) (glfwAlive w) (shouldClose w) p
          (viewport w) (vertexArrays w) (buffers w) (textures w)
          (boundTexture w) (images w) (freed w) (polls w).

Definition set_viewport (v : option (Z * Z * Z * Z)) (w : World) : World :=
  mkWorld (calls w) (glfwAlive w) (shouldClose w) (sizeCallback w)
          v (vertexArrays w) (buffers w) (textures w)
          (boundTexture w) (images w) (freed w) (polls w).

Definition set_vertexArrays (l : list Z) (w : World) : World :=
  mkWorld (calls w) (glfwAlive w) (shouldClose w) (sizeCallback w)
          (viewport w) l (buffers w) (textures w)
          (boundTexture w) (images w) (freed w) (polls w).

Definition set_buffers (l : list Z) (w : World) : World :=
  mkWorld (calls w) (glfwAlive w) (shouldClose w) (sizeCallback w)
          (viewport w) (vertexArrays w) l (textures w)
          (boundTexture w) (images w) (freed w) (polls w).

Definition set_textures (l : list Z) (w : World) : World :=
  mkWorld (calls w) (glfwAlive w) (shouldClose w) (sizeCallback w)
          (viewport w) (vertexArrays w) (buffers w) l
          (boundTexture w) (images w) (freed w) (polls w).

Definition set_boundTexture (t : Z) (w : World) : World :=
  mkWorld (calls w) (glfwAlive w) (shouldClose w) (sizeCallback w)
          (viewport w) (vertexArrays w) (buffers w) (textures w)
          t (images w) (freed w) (polls w).

Definition set_images (l : list (Z * TexImage)) (w : World) : World :=
  mkWorld (calls w) (glfwAlive w) (shouldClose w) (sizeCallback w)
          (viewport w) (vertexArrays w) (buffers w) (textures w)
          (boundTexture w) l (freed w) (polls w).

Definition set_freed (l : list pointer) (w : World) : World :=
  mkWorld (calls w) (glfwAlive w) (shouldClose w) (sizeCallback w)
          (viewport w) (vertexArrays w) (buffers w) (textures w)
          (boundTexture w) (images w) l (polls w).

Definition set_polls (n : nat) (w : World) : World :=
  mkWorld (calls w) (glfwAlive w) (shouldClose w) (sizeCallback w)
          (viewport w) (vertexArrays w) (buffers w) (textures w)
          (boundTexture w) (images w) (freed w) n.

(** The image last uploaded to a texture name, if any. *)
Fixpoint image_of (t : Z) (l : list (Z * TexImage)) : option TexImage :=
  match l with
  | [] => None
  | (t', i) :: l' => if Z.eqb t t' then Some i else image_of t l'
  end.

(** ** The monad *)

Definition M (A : Type) : Type := World -> A * World.

Definition ret {A : Type} (a : A) : M A := fun w => (a, w).

Definition bind {A B : Type} (m : M A) (k : A -> M B) : M B :=
  fun w => let (a, w') := m w in k a w'.

Notation "x <- m ;; k" := (bind m (fun x => k))
  (at level 61, m at next level, right associativity).
Notation "m ;; k" := (bind m (fun _ => k))
  (at level 61, right associativity).
Notation "' pat <- m ;; k" := (bind m (fun x => match x with pat => k end))
  (at level 61, pat pattern, m at next level, right associativity).

(** Issue a call, change the library state, answer. *)
Definition issue {A : Type} (c : Call) (f : World -> World) (a : World -> A)
  : M A :=
  fun w => (a w, f (log c w)).

Definition same : World -> World := fun w => w.
Definition nothing : World -> unit := fun _ => tt.

(** ** The program *)

(** The vertex data and the index data of [main], as written there. *)
Definition vertices : list float := [
   (* positions *)      (* colors *)     (* texture coords *)
   0.5;  0.5; 0.0;    1.0; 0.0; 0.0;    1.0; 1.0;   (* top right *)
   0.5; -0.5; 0.0;    0.0; 1.0; 0.0;    1.0; 0.0;   (* bottom right *)
  -0.5; -0.5; 0.0;    0.0; 0.0; 1.0;    0.0; 0.0;   (* bottom left *)
  -0.5;  0.5; 0.0;    1.0; 1.0; 0.0;    0.0; 1.0    (* top left *)
]%Q.

Definition indices : list Z := [
  0; 1; 3;   (* first triangle *)
  1; 2; 3    (* second triangle *)
].

(** [sizeof] of the two arrays. *)
Definition sizeof_vertices : Z := Z.of_nat (List.length vertices) * sizeof_float.
Definition sizeof_indices : Z := Z.of_nat (List.length indices) * sizeof_uint.

(** settings *)
Definition SCR_WIDTH : Z := 800.
Definition SCR_HEIGHT : Z := 600.

Section Program.

Variable env : Env.

(** *** GLFW, glad, stb_image and the shader class *)

Definition glfwInit : M unit := issue GlfwInit (set_glfwAlive true) nothing.

Definition glfwWindowHint (hint : GLFWconst) (value : HintValue) : M unit :=
  issue (GlfwWindowHint hint value) same nothing.

Definition glfwCreateWindow (width height : Z) (title : string) : M pointer :=
  issue (GlfwCreateWindow width height title) same
        (fun _ => createWindow_result env).

Definition cout (msg : string) : M unit := issue (Cout msg) same nothing.

Definition glfwTerminate : M unit :=
  issue GlfwTerminate (set_glfwAlive false) nothing.

Definition glfwMakeContextCurrent (window : pointer) : M unit :=
  issue (GlfwMakeContextCurrent window) same nothing.

Definition glfwSetFramebufferSizeCallback (window : pointer) : M unit :=
  issue (GlfwSetFramebufferSizeCallback window)
        (set_sizeCallback (Some window)) nothing.

Definition gladLoadGLLoader : M Z :=
  issue GladLoadGLLoader same (fun _ => gladLoad_result env).

Definition Shader (vertexPath fragmentPath : string) : M Z :=
  issue (ShaderCtor vertexPath fragmentPath) same (fun _ => shader_ID env).

Definition Shader_use (ourShader : Z) : M unit := issue ShaderUse same nothing.

Definition Shader_getProgram (ourShader : Z) : M Z :=
  issue ShaderGetProgram same (fun _ => ourShader).

Definition stbi_load (filename : string) (desired_channels : Z)
  : M (pointer * Z * Z * Z) :=
  issue (StbiLoad filename desired_channels) same
        (fun _ => (stbi_data env, stbi_width env, stbi_height env,
                   stbi_nrChannels env)).

Definition stbi_image_free (data : pointer) : M unit :=
  issue (StbiImageFree data) (fun w => set_freed (data :: freed w) w) nothing.

Definition glfwWindowShouldClose (window : pointer) : M bool :=
  issue (GlfwWindowShouldClose window) same shouldClose.

Definition glfwGetKey (window : pointer) (key : GLFWconst) : M KeyState :=
  issue (GlfwGetKey window key) same (fun w => key_escape env (polls w)).

Definition glfwSetWindowShouldClose (window : pointer) (value : bool)
  : M unit :=
  issue (GlfwSetWindowShouldClose window value) (set_shouldClose value) nothing.

Definition glfwGetTime : M double :=
  issue GlfwGetTime same (fun w => clock env (polls w)).

Definition glfwSwapBuffers (window : pointer) : M unit :=
  issue (GlfwSwapBuffers window) same nothing.

(** *** OpenGL *)

(** [glGen*(1, &name)]: the driver writes a name into the variable; the
    embedding returns it. *)
Definition glGenVertexArrays (n : Z) (name : Z) : M Z :=
  issue (GlGenVertexArrays n)
        (fun w => set_vertexArrays (name :: vertexArrays w) w) (fun _ => name).

Definition glGenBuffers (n : Z) (name : Z) : M Z :=
  issue (GlGenBuffers n)
        (fun w => set_buffers (name :: buffers w) w) (fun _ => name).

Definition glGenTextures (n : Z) (name : Z) : M Z :=
  issue (GlGenTextures n)
        (fun w => set_textures (name :: textures w) w) (fun _ => name).

Definition glBindVertexArray (array : Z) : M unit :=
  issue (GlBindVertexArray array) same nothing.

Definition glBindBuffer (target : GLenum) (buffer : Z) : M unit :=
  issue (GlBindBuffer target buffer) same nothing.

Definition glBufferData (target : GLenum) (size : Z) (data : ArrayData)
                        (usage : GLenum) : M unit :=
  issue (GlBufferData target size data usage) same nothing.

Definition glVertexAttribPointer (index size : Z) (type normalized : GLenum)
                                 (stride offset : Z) : M unit :=
  issue (GlVertexAttribPointer index size type normalized stride offset)
        same nothing.

Definition glEnableVertexAttribArray (index : Z) : M unit :=
  issue (GlEnableVertexAttribArray index) same nothing.

Definition glBindTexture (target : GLenum) (texture : Z) : M unit :=
  issue (GlBindTexture target texture) (set_boundTexture texture) nothing.

Definition glTexParameteri (target pname param : GLenum) : M unit :=
  issue (GlTexParameteri target pname param) same nothing.

Definition glTexImage2D (target : GLenum) (level : Z) (internalformat : GLenum)
                        (width height border : Z) (format type : GLenum)
                        (data : pointer) : M unit :=
  issue (GlTexImage2D target level internalformat width height border
                      format type data)
        (fun w => set_images
                    ((boundTexture w, mkTexImage width height data) :: images w)
                    w)
        nothing.

Definition glGenerateMipmap (target : GLenum) : M unit :=
  issue (GlGenerateMipmap target) same nothing.

Definition glClearColor (r g b a : float) : M unit :=
  issue (GlClearColor r g b a) same nothing.

Definition glClear (mask : GLenum) : M unit :=
  issue (GlClear mask) same nothing.

Definition glGetUniformLocation (program : Z) (name : string) : M Z :=
  issue (GlGetUniformLocation program name) same
        (fun _ => uniform_location env).

Definition glUniform1f (location : Z) (v0 : float) : M unit :=
  issue (GlUniform1f location v0) same nothing.

Definition glDrawElements (mode : GLenum) (count : Z) (type : GLenum)
                          (offset : Z) : M unit :=
  issue (GlDrawElements mode count type offset) same nothing.

Definition glViewport (x y width height : Z) : M unit :=
  issue (GlViewport x y width height)
        (set_viewport (Some (x, y, width, height))) nothing.

Definition glDeleteVertexArrays (n : Z) (array : Z) : M unit :=
  issue (GlDeleteVertexArrays n array)
        (fun w => set_vertexArrays (remove Z.eq_dec array (vertexArrays w)) w)
        nothing.

Definition glDeleteBuffers (n : Z) (buffer : Z) : M unit :=
  issue (GlDeleteBuffers n buffer)
        (fun w => set_buffers (remove Z.eq_dec buffer (buffers w)) w)
        nothing.

(** *** The two functions of the program besides [main] *)

(** glfw: whenever the window size changed this callback function executes *)
Definition framebuffer_size_callback (window : pointer) (width height : Z)
  : M unit :=
  glViewport 0 0 width height.

(** process all input *)
Definition processInput (window : pointer) : M unit :=
  k <- glfwGetKey window GLFW_KEY_ESCAPE ;;
  match k with
  | GLFW_PRESS => glfwSetWindowShouldClose window true
  | GLFW_RELEASE => ret tt
  end.

(** *** Event delivery *)

(** What GLFW does with one event: a size event runs the installed callback,
    a close request raises the close flag. *)
Definition deliver (e : Event) : M unit :=
  match e with
  | FramebufferSize width height =>
      fun w => match sizeCallback w with
               | Some window => framebuffer_size_callback window width height w
               | None => (tt, w)
               end
  | WindowClose => fun w => (tt, set_shouldClose true w)
  end.

Fixpoint deliver_all (l : list Event) : M unit :=
  match l with
  | [] => ret tt
  | e :: l' => deliver e ;; deliver_all l'
  end.

Definition glfwPollEvents : M unit :=
  issue GlfwPollEvents same nothing ;;
  n <- (fun w => (polls w, w)) ;;
  deliver_all (pending env n) ;;
  fun w => (tt, set_polls (S (polls w)) w).

(** *** The render loop *)

(** One pass through the body of the [while] of [main]. *)
Definition frame (window : pointer) (texture ourShader VAO : Z) : M unit :=
  (* input *)
  processInput window ;;
  (* render *)
  glClearColor (to_float 0.2) (to_float 0.3) (to_float 0.3) (to_float 1.0) ;;
  glClear GL_COLOR_BUFFER_BIT ;;
  (* bind Texture *)
  glBindTexture GL_TEXTURE_2D texture ;;
  (* render container *)
  Shader_use ourShader ;;
  program <- Shader_getProgram ourShader ;;
  uniformTime <- glGetUniformLocation program "time" ;;
  t <- glfwGetTime ;;
  glUniform1f uniformTime (to_float t) ;;
  glBindVertexArray VAO ;;
  glDrawElements GL_TRIANGLES 6 GL_UNSIGNED_INT 0 ;;
  (* glfw: swap buffers and poll IO events *)
  glfwSwapBuffers window ;;
  glfwPollEvents.

(** [while (!glfwWindowShouldClose(window)) { ... }], cut after [fuel] tests
    of the condition.  The answer tells whether the loop was left. *)
Fixpoint render_loop (fuel : nat) (window : pointer) (texture ourShader VAO : Z)
  : M bool :=
  match fuel with
  | O => ret false
  | S fuel' =>
      c <- glfwWindowShouldClose window ;;
      if c then ret true
      else frame window texture ourShader VAO ;;
           render_loop fuel' window texture ourShader VAO
  end.

(** *** main *)

(** The answer is the value [main] returns; [None] when the render loop was
    cut before it was left. *)
Definition main (fuel : nat) : M (option Z) :=
  (* glfw: initialize and configure *)
  glfwInit ;;
  glfwWindowHint GLFW_CONTEXT_VERSION_MAJOR (HintInt 3) ;;
  glfwWindowHint GLFW_CONTEXT_VERSION_MINOR (HintInt 3) ;;
  glfwWindowHint GLFW_OPENGL_PROFILE (HintGLFW GLFW_OPENGL_CORE_PROFILE) ;;
  (if APPLE env
   then glfwWindowHint GLFW_OPENGL_FORWARD_COMPAT (HintGL GL_TRUE)
   else ret tt) ;;
  (* glfw window creation *)
  window <- glfwCreateWindow SCR_WIDTH SCR_HEIGHT "LearnOpenGL" ;;
  if Z.eqb window NULL then
    cout "Failed to create GLFW window" ;;
    glfwTerminate ;;
    ret (Some (-1))
  else
  glfwMakeContextCurrent window ;;
  glfwSetFramebufferSizeCallback window ;;
  (* glad: load all OpenGL function pointers *)
  loaded <- gladLoadGLLoader ;;
  if Z.eqb loaded 0 then
    cout "Failed to initialize GLAD" ;;
    ret (Some (-1))
  else
  (* build and compile our shader zprogram *)
  ourShader <- Shader "4.1.texturevs.txt" "4.1.texturefs.txt" ;;
  (* set up vertex data (and buffer(s)) and configure vertex attributes *)
  VAO <- glGenVertexArrays 1 (gen_VAO env) ;;
  VBO <- glGenBuffers 1 (gen_VBO env) ;;
  EBO <- glGenBuffers 1 (gen_EBO env) ;;
  glBindVertexArray VAO ;;
  glBindBuffer GL_ARRAY_BUFFER VBO ;;
  glBufferData GL_ARRAY_BUFFER sizeof_vertices (Floats vertices)
               GL_STATIC_DRAW ;;
  glBindBuffer GL_ELEMENT_ARRAY_BUFFER EBO ;;
  glBufferData GL_ELEMENT_ARRAY_BUFFER sizeof_indices (UInts indices)
               GL_STATIC_DRAW ;;
  (* position attribute *)
  glVertexAttribPointer 0 3 GL_FLOAT GL_FALSE (8 * sizeof_float) 0 ;;
  glEnableVertexAttribArray 0 ;;
  (* color attribute *)
  glVertexAttribPointer 1 3 GL_FLOAT GL_FALSE (8 * sizeof_float)
                        (3 * sizeof_float) ;;
  glEnableVertexAttribArray 1 ;;
  (* texture coord attribute *)
  glVertexAttribPointer 2 2 GL_FLOAT GL_FALSE (8 * sizeof_float)
                        (6 * sizeof_float) ;;
  glEnableVertexAttribArray 2 ;;
  (* load and create a texture *)
  texture <- glGenTextures 1 (gen_texture env) ;;
  glBindTexture GL_TEXTURE_2D texture ;;
  (* set the texture wrapping parameters *)
  glTexParameteri GL_TEXTURE_2D GL_TEXTURE_WRAP_S GL_REPEAT ;;
  glTexParameteri GL_TEXTURE_2D GL_TEXTURE_WRAP_T GL_REPEAT ;;
  (* set texture filtering parameters *)
  glTexParameteri GL_TEXTURE_2D GL_TEXTURE_MIN_FILTER GL_LINEAR ;;
  glTexParameteri GL_TEXTURE_2D GL_TEXTURE_MAG_FILTER GL_LINEAR ;;
  (* load image, create texture and generate mipmaps *)
  '(data, width, height, nrChannels) <- stbi_load "container.jpg" 0 ;;
  (if negb (Z.eqb data NULL) then
     glTexImage2D GL_TEXTURE_2D 0 GL_RGB width height 0 GL_RGB
                  GL_UNSIGNED_BYTE data ;;
     glGenerateMipmap GL_TEXTURE_2D
   else
     cout "Failed to load texture") ;;
  stbi_image_free data ;;
  (* render loop *)
  left <- render_loop fuel window texture ourShader VAO ;;
  if left then
    (* optional: de-allocate all resources *)
    glDeleteVertexArrays 1 VAO ;;
    glDeleteBuffers 1 VBO ;;
    glDeleteBuffers 1 EBO ;;
    (* glfw: terminate *)
    glfwTerminate ;;
    ret (Some 0)
  else ret None.

End Program.

(** ** Sample environments *)

(** Everything succeeds; the first poll delivers a resize to 1024x768, and
    Escape is down from the third frame on. *)
Definition env_ok : Env :=
  mkEnv false 4096 1 3 1 1 2 1 8192 512 512 3 0
        (fun n => if Nat.leb 2 n then GLFW_PRESS else GLFW_RELEASE)
        (fun n => inject_Z (Z.of_nat n))
        (fun n => match n with
                  | O => [FramebufferSize 1024 768]
                  | _ => []
                  end).

(** [glfwCreateWindow] answers [NULL]. *)
Definition env_no_window : Env :=
  mkEnv false NULL 1 3 1 1 2 1 8192 512 512 3 0
        (fun _ => GLFW_RELEASE) (fun _ => 0%Q) (fun _ => []).

(** [gladLoadGLLoader] answers 0. *)
Definition env_no_glad : Env :=
  mkEnv false 4096 0 3 1 1 2 1 8192 512 512 3 0
        (fun _ => GLFW_RELEASE) (fun _ => 0%Q) (fun _ => []).

(** [stbi_load] answers [NULL]; the window is closed by its close button
    during the first poll. *)
Definition env_no_image : Env :=
  mkEnv false 4096 1 3 1 1 2 1 NULL 0 0 0 0
        (fun _ => GLFW_RELEASE) (fun _ => 0%Q)
        (fun n => match n with O => [WindowClose] | _ => [] end).

(** Everything succeeds, Escape is down from the start, and the clock reads
    one tenth of a second. *)
Definition env_tenth : Env :=
  mkEnv false 4096 1 3 1 1 2 1 8192 512 512 3 0
        (fun _ => GLFW_PRESS) (fun _ => 0.1%Q) (fun _ => []).

(** Nobody ever asks the window to close. *)
Definition env_forever : Env :=
  mkEnv true 4096 1 3 1 1 2 1 8192 512 512 3 0
        (fun _ => GLFW_RELEASE) (fun _ => 0%Q) (fun _ => []).

(** ** Notions used to state the properties *)

(** *** The render loop, pass by pass *)

(** One test of the loop condition followed by the loop body. *)
Definition pass (env : Env) (window : pointer) (texture ourShader VAO : Z)
                (w : World) : World :=
  snd ((glfwWindowShouldClose window ;;
        frame env window texture ourShader VAO) w).

(** The world after [n] passes. *)
Fixpoint passes (env : Env) (window : pointer) (texture ourShader VAO : Z)
                (n : nat) (w : World) : World :=
  match n with
  | O => w
  | S n' => passes env window texture ourShader VAO n'
                   (pass env window texture ourShader VAO w)
  end.

(** The world in which [main] reaches its render loop: [main] cut before the
    first test of the loop condition. *)
Definition at_loop (env : Env) : World := snd (main env 0 initial).

(** The world at the start of pass [n] of the render loop of [main]. *)
Definition at_pass (env : Env) (n : nat) : World :=
  passes env (createWindow_result env) (gen_texture env) (shader_ID env)
         (gen_VAO env) n (at_loop env).

(** The steps of a pass the specification names. *)
Inductive Step : Type :=
| InputCheck | ClearFrame | BindTexture | BindProgram | BindVertexArray
| DrawCall | SwapBuffers | PollEvents.

Definition step_of (c : Call) : option Step :=
  match c with
  | GlfwGetKey _ _ => Some InputCheck
  | GlClear _ => Some ClearFrame
  | GlBindTexture _ _ => Some BindTexture
  | ShaderUse => Some BindProgram
  | GlBindVertexArray _ => Some BindVertexArray
  | GlDrawElements _ _ _ _ => Some DrawCall
  | GlfwSwapBuffers _ => Some SwapBuffers
  | GlfwPollEvents => Some PollEvents
  | _ => None
  end.

Fixpoint steps (l : list Call) : list Step :=
  match l with
  | [] => []
  | c :: l' => match step_of c with
               | Some s => s :: steps l'
               | None => steps l'
               end
  end.

(** *** Recognisers of calls *)

Definition is_draw (c : Call) : bool :=
  match c with GlDrawElements _ _ _ _ => true | _ => false end.

Definition is_free (c : Call) : bool :=
  match c with StbiImageFree _ => true | _ => false end.

Definition is_upload (c : Call) : bool :=
  match c with
  | GlTexImage2D _ _ _ _ _ _ _ _ _ => true
  | GlGenerateMipmap _ => true
  | _ => false
  end.

Definition is_delete_texture (c : Call) : bool :=
  match c with GlDeleteTextures _ _ => true | _ => false end.

Definition is_decode (c : Call) : bool :=
  match c with StbiLoad _ _ | StbiImageFree _ => true | _ => false end.

Definition is_terminate (c : Call) : bool :=
  match c with GlfwTerminate => true | _ => false end.

(** The attribute declarations among the calls: index, size in floats,
    stride and offset in bytes. *)
Fixpoint attrib_pointers (l : list Call) : list (Z * Z * Z * Z) :=
  match l with
  | [] => []
  | GlVertexAttribPointer index size GL_FLOAT _ stride offset :: l' =>
      (index, size, stride, offset) :: attrib_pointers l'
  | _ :: l' => attrib_pointers l'
  end.

(** The wrap and filter parameters set among the calls. *)
Fixpoint tex_parameters (l : list Call) : list (GLenum * GLenum) :=
  match l with
  | [] => []
  | GlTexParameteri GL_TEXTURE_2D pname param :: l' =>
      (pname, param) :: tex_parameters l'
  | _ :: l' => tex_parameters l'
  end.

(** *** Reading vertex attributes out of the vertex buffer *)

(** The float stored at byte address [a] of a buffer of floats. *)
Definition float_at (buf : list float) (a : Z) : option float :=
  if (0 <=? a) && (a mod sizeof_float =? 0)
  then nth_error buf (Z.to_nat (a / sizeof_float))
  else None.

(** [n] consecutive floats from byte address [a] on. *)
Fixpoint floats_at (buf : list float) (a : Z) (n : nat) : option (list float) :=
  match n with
  | O => Some []
  | S n' =>
      match float_at buf a, floats_at buf (a + sizeof_float) n' with
      | Some x, Some l => Some (x :: l)
      | _, _ => None
      end
  end.

(** What OpenGL reads for vertex [v] through a declaration of [size] floats
    with the given [stride] and [offset] (both in bytes). *)
Definition fetch (buf : list float) (size stride offset : Z) (v : Z)
  : option (list float) :=
  floats_at buf (offset + v * stride) (Z.to_nat size).

(** *** The geometry drawn *)

Definition point : Type := (Q * Q)%type.

(** Position of vertex [v] in the plane, read through attribute 0 as [main]
    declares it (the third coordinate is 0 throughout). *)
Definition position (v : Z) : point :=
  match fetch vertices 3 (8 * sizeof_float) 0 v with
  | Some [x; y; _] => (x, y)
  | _ => (0, 0)%Q
  end.

(** Texture coordinate of vertex [v], read through attribute 2. *)
Definition texcoord (v : Z) : option (list float) :=
  fetch vertices 2 (8 * sizeof_float) (6 * sizeof_float) v.

(** [GL_TRIANGLES]: every three consecutive indices make a triangle. *)
Fixpoint assemble (l : list Z) : list (Z * Z * Z) :=
  match l with
  | a :: b :: c :: l' => (a, b, c) :: assemble l'
  | _ => []
  end.

(** The triangles [glDrawElements(GL_TRIANGLES, count, GL_UNSIGNED_INT, 0)]
    draws from the index data. *)
Definition drawn (count : Z) : list (Z * Z * Z) :=
  assemble (firstn (Z.to_nat count) indices).

Local Open Scope Q_scope.

(** Twice the signed area of the triangle [a b p]: its sign tells on which
    side of the line through [a] and [b] the point [p] lies. *)
Definition side (a b p : point) : Q :=
  (fst b - fst a) * (snd p - snd a) - (snd b - snd a) * (fst p - fst a).

(** [p] lies in the closed triangle [a b c]. *)
Definition in_triangle (a b c p : point) : Prop :=
  (0 <= side a b p /\ 0 <= side b c p /\ 0 <= side c a p) \/
  (side a b p <= 0 /\ side b c p <= 0 /\ side c a p <= 0).

(** [p] lies in the interior of the triangle [a b c]. *)
Definition inside_triangle (a b c p : point) : Prop :=
  (0 < side a b p /\ 0 < side b c p /\ 0 < side c a p) \/
  (side a b p < 0 /\ side b c p < 0 /\ side c a p < 0).

(** [p] lies on the closed segment from [a] to [b]. *)
Definition on_segment (a b p : point) : Prop :=
  side a b p == 0 /\
  0 <= (fst p - fst a) * (fst b - fst a) + (snd p - snd a) * (snd b - snd a) /\
  (fst p - fst a) * (fst b - fst a) + (snd p - snd a) * (snd b - snd a)
    <= (fst b - fst a) * (fst b - fst a) + (snd b - snd a) * (snd b - snd a).

(** The full quad [-0.5,0.5] x [-0.5,0.5]. *)
Definition in_quad (p : point) : Prop :=
  -0.5 <= fst p /\ fst p <= 0.5 /\ -0.5 <= snd p /\ snd p <= 0.5.

(** [p] lies in the triangle with the given vertex indices. *)
Definition in_drawn (t : Z * Z * Z) (p : point) : Prop :=
  let '(i, j, k) := t in
  in_triangle (position i) (position j) (position k) p.

Definition inside_drawn (t : Z * Z * Z) (p : point) : Prop :=
  let '(i, j, k) := t in
  inside_triangle (position i) (position j) (position k) p.

(** A coordinate within [0,1]. *)
Definition in_unit (x : float) : Prop := 0 <= x /\ x <= 1.

Local Close Scope Q_scope.

(** *** What a pass does, written out *)

Definition is_press (k : KeyState) : bool :=
  match k with GLFW_PRESS => true | GLFW_RELEASE => false end.

Definition is_close (e : Event) : bool :=
  match e with WindowClose => true | FramebufferSize _ _ => false end.

Definition is_resize (e : Event) : bool :=
  match e with FramebufferSize _ _ => true | WindowClose => false end.

(** The calls the callback issues while a list of events is delivered. *)
Fixpoint callback_calls (cb : option pointer) (l : list Event) : list Call :=
  match l with
  | [] => []
  | FramebufferSize width height :: l' =>
      match cb with
      | Some _ => GlViewport 0 0 width height :: callback_calls cb l'
      | None => callback_calls cb l'
      end
  | WindowClose :: l' => callback_calls cb l'
  end.

(** The viewport after a list of events was delivered. *)
Fixpoint resized (cb : option pointer) (l : list Event)
                 (v : option (Z * Z * Z * Z)) : option (Z * Z * Z * Z) :=
  match l with
  | [] => v
  | FramebufferSize width height :: l' =>
      match cb with
      | Some _ => resized cb l' (Some (0, 0, width, height))
      | None => resized cb l' v
      end
  | WindowClose :: l' => resized cb l' v
  end.

(** The calls of one pass that starts in world [w], in order. *)
Definition pass_calls (env : Env) (window : pointer) (texture ourShader VAO : Z)
                      (w : World) : list Call :=
  [GlfwWindowShouldClose window; GlfwGetKey window GLFW_KEY_ESCAPE]
  ++ (if is_press (key_escape env (polls w))
      then [GlfwSetWindowShouldClose window true] else [])
  ++ [GlClearColor (to_float 0.2) (to_float 0.3) (to_float 0.3)
                   (to_float 1.0);
      GlClear GL_COLOR_BUFFER_BIT;
      GlBindTexture GL_TEXTURE_2D texture;
      ShaderUse;
      ShaderGetProgram;
      GlGetUniformLocation ourShader "time";
      GlfwGetTime;
      GlUniform1f (uniform_location env) (to_float (clock env (polls w)));
      GlBindVertexArray VAO;
      GlDrawElements GL_TRIANGLES 6 GL_UNSIGNED_INT 0;
      GlfwSwapBuffers window;
      GlfwPollEvents]
  ++ callback_calls (sizeCallback w) (pending env (polls w)).

(** The calls the render loop can issue. *)
Definition loop_call (c : Call) : bool :=
  match c with
  | GlfwWindowShouldClose _ | GlfwGetKey _ _ | GlfwSetWindowShouldClose _ _
  | GlClearColor _ _ _ _ | GlClear _ | GlBindTexture _ _
  | ShaderUse | ShaderGetProgram | GlGetUniformLocation _ _
  | GlfwGetTime | GlUniform1f _ _ | GlBindVertexArray _
  | GlDrawElements _ _ _ _ | GlfwSwapBuffers _ | GlfwPollEvents
  | GlViewport _ _ _ _ => true
  | _ => false
  end.

(** The window hints [main] gives before it creates the window. *)
Definition hint_calls (env : Env) : list Call :=
  [GlfwWindowHint GLFW_CONTEXT_VERSION_MAJOR (HintInt 3);
   GlfwWindowHint GLFW_CONTEXT_VERSION_MINOR (HintInt 3);
   GlfwWindowHint GLFW_OPENGL_PROFILE (HintGLFW GLFW_OPENGL_CORE_PROFILE)]
  ++ (if APPLE env
      then [GlfwWindowHint GLFW_OPENGL_FORWARD_COMPAT (HintGL GL_TRUE)]
      else []).

(** The calls of [main] from the creation of the window up to the render
    loop, when the window and the loader succeed, in order. *)
Definition setup_calls (env : Env) : list Call :=
  [GlfwCreateWindow 800 600 "LearnOpenGL";
   GlfwMakeContextCurrent (createWindow_result env);
   GlfwSetFramebufferSizeCallback (createWindow_result env);
   GladLoadGLLoader;
   ShaderCtor "4.1.texturevs.txt" "4.1.texturefs.txt";
   GlGenVertexArrays 1; GlGenBuffers 1; GlGenBuffers 1;
   GlBindVertexArray (gen_VAO env);
   GlBindBuffer GL_ARRAY_BUFFER (gen_VBO env);
   GlBufferData GL_ARRAY_BUFFER 128 (Floats vertices) GL_STATIC_DRAW;
   GlBindBuffer GL_ELEMENT_ARRAY_BUFFER (gen_EBO env);
   GlBufferData GL_ELEMENT_ARRAY_BUFFER 24 (UInts indices) GL_STATIC_DRAW;
   GlVertexAttribPointer 0 3 GL_FLOAT GL_FALSE 32 0;
   GlEnableVertexAttribArray 0;
   GlVertexAttribPointer 1 3 GL_FLOAT GL_FALSE 32 12;
   GlEnableVertexAttribArray 1;
   GlVertexAttribPointer 2 2 GL_FLOAT GL_FALSE 32 24;
   GlEnableVertexAttribArray 2;
   GlGenTextures 1;
   GlBindTexture GL_TEXTURE_2D (gen_texture env);
   GlTexParameteri GL_TEXTURE_2D GL_TEXTURE_WRAP_S GL_REPEAT;
   GlTexParameteri GL_TEXTURE_2D GL_TEXTURE_WRAP_T GL_REPEAT;
   GlTexParameteri GL_TEXTURE_2D GL_TEXTURE_MIN_FILTER GL_LINEAR;
   GlTexParameteri GL_TEXTURE_2D GL_TEXTURE_MAG_FILTER GL_LINEAR;
   StbiLoad "container.jpg" 0]
  ++ (if Z.eqb (stbi_data env) NULL
      then [Cout "Failed to load texture"]
      else [GlTexImage2D GL_TEXTURE_2D 0 GL_RGB (stbi_width env)
                         (stbi_height env) 0 GL_RGB GL_UNSIGNED_BYTE
                         (stbi_data env);
            GlGenerateMipmap GL_TEXTURE_2D])
  ++ [StbiImageFree (stbi_data env)].

(** The calls of [main] after the render loop was left. *)
Definition shutdown_calls (env : Env) : list Call :=
  [GlDeleteVertexArrays 1 (gen_VAO env);
   GlDeleteBuffers 1 (gen_VBO env);
   GlDeleteBuffers 1 (gen_EBO env);
   GlfwTerminate].

(** [w'] is [w] after some calls of the render loop: only loop calls were
    added, and nothing but the close flag, the viewport, the texture binding
    and the poll count changed. *)
Definition loop_extends (w w' : World) : Prop :=
  (exists added, calls w' = calls w ++ added /\ forallb loop_call added = true)
  /\ glfwAlive w' = glfwAlive w
  /\ sizeCallback w' = sizeCallback w
  /\ vertexArrays w' = vertexArrays w
  /\ buffers w' = buffers w
  /\ textures w' = textures w
  /\ images w' = images w
  /\ freed w' = freed w.

(** *** Further recognisers of calls *)



Definition is_viewport (c : Call) : bool :=
  match c with GlViewport _ _ _ _ => true | _ => false end.

Definition is_uniform (c : Call) : bool :=
  match c with
  | GlGetUniformLocation _ _ | GlUniform1f _ _ => true
  | _ => false
  end.

Definition is_set_close (c : Call) : bool :=
  match c with GlfwSetWindowShouldClose _ _ => true | _ => false end.

Definition is_cout (c : Call) : bool :=
  match c with Cout _ => true | _ => false end.

(** Calls that touch the decoded image: the upload and the release. *)
Definition touches_image (c : Call) : bool := is_upload c || is_free c.

(** Calls that create an object or fill one with data. *)
Definition is_alloc (c : Call) : bool :=
  match c with
  | ShaderCtor _ _
  | GlGenVertexArrays _ | GlGenBuffers _ | GlGenTextures _
  | GlBufferData _ _ _ _ | GlTexImage2D _ _ _ _ _ _ _ _ _ => true
  | _ => false
  end.

(** Calls of OpenGL functions, which exist only once the loader has run. *)
Definition is_gl (c : Call) : bool :=
  match c with
  | GlGenVertexArrays _ | GlGenBuffers _ | GlBindVertexArray _
  | GlBindBuffer _ _ | GlBufferData _ _ _ _
  | GlVertexAttribPointer _ _ _ _ _ _ | GlEnableVertexAttribArray _
  | GlGenTextures _ | GlBindTexture _ _ | GlTexParameteri _ _ _
  | GlTexImage2D _ _ _ _ _ _ _ _ _ | GlGenerateMipmap _
  | GlClearColor _ _ _ _ | GlClear _
  | GlGetUniformLocation _ _ | GlUniform1f _ _
  | GlDrawElements _ _ _ _ | GlViewport _ _ _ _
  | GlDeleteVertexArrays _ _ | GlDeleteBuffers _ _ | GlDeleteTextures _ _
      => true
  | _ => false
  end.

(** The calls of [main] up to and including the loader. *)
Definition startup_calls (env : Env) : list Call :=
  GlfwInit :: hint_calls env
  ++ [GlfwCreateWindow 800 600 "LearnOpenGL";
      GlfwMakeContextCurrent (createWindow_result env);
      GlfwSetFramebufferSizeCallback (createWindow_result env);
      GladLoadGLLoader].

(** * Properties *)

(** ** The render loop *)

Section Loop.

Variable env : Env.
Variable window : pointer.
Variables texture ourShader VAO : Z.

Local Abbreviation pass' := (pass env window texture ourShader VAO).
Local Abbreviation passes' := (passes env window texture ourShader VAO).
Local Abbreviation loop' :=
  (fun fuel => render_loop env fuel window texture ourShader VAO).
Local Abbreviation test := (GlfwWindowShouldClose window).

(** Delivering events: the callback's calls are appended, the close flag is
    raised by a close request, the viewport follows the size events. *)
Lemma deliver_all_world (l : list Event) (w : World) :
  deliver_all l w =
  (tt, mkWorld (calls w ++ callback_calls (sizeCallback w) l)
               (glfwAlive w)
               (shouldClose w || existsb is_close l)
               (sizeCallback w)
               (resized (sizeCallback w) l (viewport w))
               (vertexArrays w) (buffers w) (textures w) (boundTexture w)
               (images w) (freed w) (polls w)).
Proof.
  revert w. induction l as [|e l IH]; intros w.
  - cbn. rewrite app_nil_r, orb_false_r. now destruct w.
  - destruct e as [width height|]; cbn [deliver_all]; unfold bind.
    + cbn [deliver]. destruct (sizeCallback w) as [p|] eqn:Hcb.
      * cbn. rewrite IH. cbn. rewrite Hcb, <- app_assoc. reflexivity.
      * rewrite IH. cbn. rewrite Hcb. reflexivity.
    + cbn. rewrite IH. cbn. now rewrite orb_true_r.
Qed.

(** A pass, written out. *)
Lemma pass_world (w : World) :
  pass' w =
  mkWorld (calls w ++ pass_calls env window texture ourShader VAO w)
          (glfwAlive w)
          (shouldClose w || is_press (key_escape env (polls w))
                         || existsb is_close (pending env (polls w)))
          (sizeCallback w)
          (resized (sizeCallback w) (pending env (polls w)) (viewport w))
          (vertexArrays w) (buffers w) (textures w) texture
          (images w) (freed w) (S (polls w)).
Proof.
  unfold pass, frame, processInput, glfwPollEvents, bind, pass_calls.
  cbn. destruct (key_escape env (polls w)); cbn;
    rewrite deliver_all_world; cbn;
    rewrite <- ?app_assoc; cbn;
    rewrite ?orb_false_r, ?orb_true_r; reflexivity.
Qed.

(** The loop, one test at a time. *)
Lemma render_loop_S (fuel : nat) (w : World) :
  loop' (S fuel) w =
  if shouldClose w then (true, log test w) else loop' fuel (pass' w).
Proof.
  cbn [render_loop]. unfold bind at 1. cbn [glfwWindowShouldClose issue same].
  destruct (shouldClose w) eqn:Hc.
  - reflexivity.
  - unfold pass, bind, glfwWindowShouldClose, issue, same.
    destruct (frame env window texture ourShader VAO (log test w)) as [[] w1].
    reflexivity.
Qed.

Lemma passes_S (n : nat) (w : World) :
  passes' (S n) w = pass' (passes' n w).
Proof.
  revert w. induction n as [|n IH]; intros w.
  - reflexivity.
  - change (passes' (S (S n)) w) with (passes' (S n) (pass' w)).
    rewrite IH. reflexivity.
Qed.

(** Either the loop is left at the first pass that starts with the close
    flag up, or the fuel is used up by passes that all start with it down. *)
Lemma render_loop_cases (fuel : nat) (w : World) :
  (exists n, (n < fuel)%nat /\
             shouldClose (passes' n w) = true /\
             (forall m, (m < n)%nat -> shouldClose (passes' m w) = false) /\
             loop' fuel w = (true, log test (passes' n w)))
  \/
  ((forall m, (m < fuel)%nat -> shouldClose (passes' m w) = false) /\
   loop' fuel w = (false, passes' fuel w)).
Proof.
  revert w. induction fuel as [|fuel IH]; intros w.
  - right. split; [intros m Hm; lia | reflexivity].
  - rewrite render_loop_S. destruct (shouldClose w) eqn:Hc.
    + left. exists 0%nat. repeat split; [lia | exact Hc | intros m Hm; lia].
    + destruct (IH (pass' w)) as [(n & Hn & Hup & Hdown & Heq) | (Hdown & Heq)].
      * left. exists (S n). repeat split; [lia | exact Hup | | exact Heq].
        intros [|m] Hm; [exact Hc | apply Hdown; lia].
      * right. split; [| exact Heq].
        intros [|m] Hm; [exact Hc | apply Hdown; lia].
Qed.

(** The close flag, once up, stays up. *)
Lemma shouldClose_pass (w : World) :
  shouldClose w = true -> shouldClose (pass' w) = true.
Proof. intros H. rewrite pass_world. cbn. rewrite H. reflexivity. Qed.

Lemma shouldClose_passes (n m : nat) (w : World) :
  (n <= m)%nat -> shouldClose (passes' n w) = true ->
  shouldClose (passes' m w) = true.
Proof.
  intros Hle H. induction Hle as [|m Hle IH]; [exact H|].
  rewrite passes_S. now apply shouldClose_pass.
Qed.

(** The loop is left within [fuel] tests exactly when some pass among the
    first [fuel] starts with the close flag up. *)
Lemma render_loop_left (fuel : nat) (w : World) :
  fst (loop' fuel w) = true <->
  exists n, (n < fuel)%nat /\ shouldClose (passes' n w) = true.
Proof.
  destruct (render_loop_cases fuel w)
    as [(n & Hn & Hup & _ & Heq) | (Hdown & Heq)]; rewrite Heq; cbn.
  - split; [intros _; now exists n | reflexivity].
  - split; [discriminate|]. intros (n & Hn & Hup).
    rewrite (Hdown n Hn) in Hup. discriminate.
Qed.

(** What the loop leaves alone. *)
Lemma loop_extends_refl (w : World) : loop_extends w w.
Proof.
  unfold loop_extends. repeat split.
  exists []. now rewrite app_nil_r.
Qed.

Lemma loop_extends_trans (w1 w2 w3 : World) :
  loop_extends w1 w2 -> loop_extends w2 w3 -> loop_extends w1 w3.
Proof.
  intros ((a1 & Ha1 & Hf1) & H1) ((a2 & Ha2 & Hf2) & H2).
  unfold loop_extends. split.
  - exists (a1 ++ a2). rewrite Ha2, Ha1, <- app_assoc, forallb_app, Hf1, Hf2.
    now split.
  - decompose [and] H1. decompose [and] H2. repeat split; congruence.
Qed.

Lemma loop_call_callback (cb : option pointer) (l : list Event) :
  forallb loop_call (callback_calls cb l) = true.
Proof.
  induction l as [|[width height|] l IH]; cbn; [reflexivity | | exact IH].
  destruct cb; cbn; exact IH.
Qed.

Lemma loop_extends_pass (w : World) : loop_extends w (pass' w).
Proof.
  rewrite pass_world. unfold loop_extends. cbn. repeat split.
  eexists. split; [reflexivity|].
  destruct (is_press _); cbn; apply loop_call_callback.
Qed.

Lemma loop_extends_passes (n : nat) (w : World) :
  loop_extends w (passes' n w).
Proof.
  induction n as [|n IH]; [apply loop_extends_refl|].
  rewrite passes_S. eapply loop_extends_trans; [exact IH|].
  apply loop_extends_pass.
Qed.

Lemma loop_extends_test (w : World) : loop_extends w (log test w).
Proof.
  unfold loop_extends. cbn. repeat split. now exists [test].
Qed.

Lemma loop_extends_render_loop (fuel : nat) (w : World) :
  loop_extends w (snd (loop' fuel w)).
Proof.
  destruct (render_loop_cases fuel w)
    as [(n & _ & _ & _ & Heq) | (_ & Heq)]; rewrite Heq; cbn [snd].
  - eapply loop_extends_trans; [apply loop_extends_passes|].
    apply loop_extends_test.
  - apply loop_extends_passes.
Qed.

Lemma polls_passes (n : nat) (w : World) :
  polls (passes' n w) = (polls w + n)%nat.
Proof.
  induction n as [|n IH]; [cbn; lia|].
  rewrite passes_S, pass_world. cbn. lia.
Qed.

(** The close flag is up at the start of pass [n] exactly when it was up at
    the start, or Escape was down in an earlier pass, or an earlier poll
    delivered a close request. *)
Lemma shouldClose_passes_iff (n : nat) (w : World) :
  shouldClose (passes' n w) = true <->
  shouldClose w = true \/
  exists m, (m < n)%nat /\
            (key_escape env (polls w + m) = GLFW_PRESS \/
             In WindowClose (pending env (polls w + m))).
Proof.
  induction n as [|n IH].
  - cbn. split; [now left | intros [H | (m & Hm & _)]; [exact H | lia]].
  - rewrite passes_S, pass_world. cbn [shouldClose].
    rewrite polls_passes, !orb_true_iff, IH. split.
    + intros [[[H | (m & Hm & H)] | H] | H].
      * now left.
      * right. exists m. split; [lia | exact H].
      * right. exists n. split; [lia | left].
        now destruct (key_escape env (polls w + n)).
      * right. exists n. split; [lia | right].
        apply existsb_exists in H. destruct H as ([|] & Hin & He);
          [discriminate | exact Hin].
    + intros [H | (m & Hm & H)]; [now left; left; left|].
      destruct (Nat.eq_dec m n) as [-> | Hne].
      * destruct H as [H | H].
        -- left; right. now rewrite H.
        -- right. apply existsb_exists. now exists WindowClose.
      * left; left; right. exists m. split; [lia | exact H].
Qed.

End Loop.

(** A recogniser that rejects every loop call finds nothing among loop
    calls. *)
Lemma filter_loop_calls (p : Call -> bool) (l : list Call) :
  (forall c, loop_call c = true -> p c = false) ->
  forallb loop_call l = true -> filter p l = [].
Proof.
  intros Hp. induction l as [|c l IH]; cbn; [reflexivity|].
  intros H. apply andb_true_iff in H. destruct H as [Hc Hl].
  rewrite (Hp c Hc). now apply IH.
Qed.

(** ** main *)

Section Main.

Variable env : Env.

Local Abbreviation window := (createWindow_result env).
Local Abbreviation test := (GlfwWindowShouldClose (createWindow_result env)).

(** The run in which the window cannot be created, written out. *)
Lemma main_no_window (fuel : nat) :
  window = NULL ->
  main env fuel initial =
  (Some (-1),
   mkWorld (GlfwInit :: hint_calls env
            ++ [GlfwCreateWindow 800 600 "LearnOpenGL";
                Cout "Failed to create GLFW window";
                GlfwTerminate])
           false false None None [] [] [] 0 [] [] 0%nat).
Proof.
  intros H. unfold main, bind, hint_calls. cbn -[Z.eqb].
  destruct (APPLE env); cbn -[Z.eqb]; rewrite H; reflexivity.
Qed.

(** The run in which the loader fails, written out. *)
Lemma main_no_glad (fuel : nat) :
  window <> NULL -> gladLoad_result env = 0 ->
  main env fuel initial =
  (Some (-1),
   mkWorld (GlfwInit :: hint_calls env
            ++ [GlfwCreateWindow 800 600 "LearnOpenGL";
                GlfwMakeContextCurrent window;
                GlfwSetFramebufferSizeCallback window;
                GladLoadGLLoader;
                Cout "Failed to initialize GLAD"])
           true false (Some window) None [] [] [] 0 [] [] 0%nat).
Proof.
  intros H1 H2. apply Z.eqb_neq in H1.
  unfold main, bind, hint_calls. cbn -[Z.eqb].
  destruct (APPLE env); cbn -[Z.eqb]; rewrite H1; cbn -[Z.eqb];
    rewrite H2; reflexivity.
Qed.

(** The world in which the render loop is entered, written out. *)
Lemma at_loop_world :
  window <> NULL -> gladLoad_result env <> 0 ->
  at_loop env =
  mkWorld (GlfwInit :: hint_calls env ++ setup_calls env)
          true false (Some window) None
          [gen_VAO env] [gen_EBO env; gen_VBO env] [gen_texture env]
          (gen_texture env)
          (if Z.eqb (stbi_data env) NULL then []
           else [(gen_texture env,
                  mkTexImage (stbi_width env) (stbi_height env)
                             (stbi_data env))])
          [stbi_data env] 0%nat.
Proof.
  intros H1 H2. apply Z.eqb_neq in H1, H2.
  unfold at_loop, main, bind, hint_calls, setup_calls. cbn -[Z.eqb].
  destruct (APPLE env); cbn -[Z.eqb]; rewrite H1; cbn -[Z.eqb];
    rewrite H2; cbn -[Z.eqb];
    destruct (stbi_data env =? NULL); reflexivity.
Qed.

(** [main] from the render loop on. *)
Lemma main_from_loop (fuel : nat) :
  window <> NULL -> gladLoad_result env <> 0 ->
  main env fuel initial =
  let (left, w) := render_loop env fuel window (gen_texture env)
                               (shader_ID env) (gen_VAO env) (at_loop env) in
  if left
  then (Some 0,
        mkWorld (calls w ++ shutdown_calls env)
                false (shouldClose w) (sizeCallback w) (viewport w)
                (remove Z.eq_dec (gen_VAO env) (vertexArrays w))
                (remove Z.eq_dec (gen_EBO env)
                        (remove Z.eq_dec (gen_VBO env) (buffers w)))
                (textures w) (boundTexture w) (images w) (freed w) (polls w))
  else (None, w).
Proof.
  intros H1 H2. rewrite (at_loop_world H1 H2). apply Z.eqb_neq in H1, H2.
  unfold main, bind, shutdown_calls, hint_calls, setup_calls.
  cbn -[Z.eqb render_loop].
  destruct (APPLE env); cbn -[Z.eqb render_loop]; rewrite H1;
    cbn -[Z.eqb render_loop]; rewrite H2; cbn -[Z.eqb render_loop];
    destruct (stbi_data env =? NULL); cbn -[Z.eqb render_loop].
  all: match goal with
       | |- (let (_, _) := render_loop _ _ _ _ _ _ ?w1 in _) =
            (let (_, _) := render_loop _ _ _ _ _ _ ?w2 in _) =>
           change w1 with w2;
           destruct (render_loop env fuel window (gen_texture env)
                                 (shader_ID env) (gen_VAO env) w2)
             as [[|] w']
       end; [| reflexivity].
  all: cbv [ret set_glfwAlive set_buffers set_vertexArrays log
            calls glfwAlive shouldClose sizeCallback viewport vertexArrays
            buffers textures boundTexture images freed polls];
       rewrite <- !app_assoc; reflexivity.
Qed.

(** The world [main] ends in: the world [w] in which the render loop stopped,
    followed by the shutdown calls when the loop was left. *)
Lemma main_world (fuel : nat) :
  window <> NULL -> gladLoad_result env <> 0 ->
  exists w,
    loop_extends (at_loop env) w /\
    (main env fuel initial = (None, w) \/
     main env fuel initial =
     (Some 0,
      mkWorld (calls w ++ shutdown_calls env)
              false (shouldClose w) (sizeCallback w) (viewport w)
              (remove Z.eq_dec (gen_VAO env) (vertexArrays w))
              (remove Z.eq_dec (gen_EBO env)
                      (remove Z.eq_dec (gen_VBO env) (buffers w)))
              (textures w) (boundTexture w) (images w) (freed w) (polls w))).
Proof.
  intros H1 H2. rewrite (main_from_loop fuel H1 H2).
  pose proof (loop_extends_render_loop env window (gen_texture env)
                (shader_ID env) (gen_VAO env) fuel (at_loop env)) as Hext.
  destruct (render_loop env fuel window (gen_texture env) (shader_ID env)
                        (gen_VAO env) (at_loop env)) as [[|] w];
    exists w; (split; [exact Hext|]); [now right | now left].
Qed.

(** [main] returns 0 exactly when the loop is left, and is cut otherwise. *)
Lemma main_result (fuel : nat) :
  window <> NULL -> gladLoad_result env <> 0 ->
  fst (main env fuel initial) =
  if fst (render_loop env fuel window (gen_texture env) (shader_ID env)
                      (gen_VAO env) (at_loop env))
  then Some 0 else None.
Proof.
  intros H1 H2. rewrite (main_from_loop fuel H1 H2).
  now destruct (render_loop env fuel window (gen_texture env) (shader_ID env)
                            (gen_VAO env) (at_loop env)) as [[|] w].
Qed.

(** In [main], pass [n] starts with the close flag up exactly when Escape was
    down in an earlier pass or an earlier poll delivered a close request. *)
Lemma shouldClose_at_pass (n : nat) :
  window <> NULL -> gladLoad_result env <> 0 ->
  (shouldClose (at_pass env n) = true <->
   exists m, (m < n)%nat /\
             (key_escape env m = GLFW_PRESS \/
              In WindowClose (pending env m))).
Proof.
  intros H1 H2. unfold at_pass. rewrite shouldClose_passes_iff.
  rewrite (at_loop_world H1 H2). cbn [shouldClose polls Nat.add].
  split; [intros [H | H]; [discriminate | exact H] | now right].
Qed.

(** The calls of a run that gets past the loader: start-up, loop calls, and
    the shutdown calls when [main] returns. *)
Lemma main_calls (fuel : nat) :
  window <> NULL -> gladLoad_result env <> 0 ->
  exists added,
    forallb loop_call added = true /\
    calls (snd (main env fuel initial)) =
    (GlfwInit :: hint_calls env ++ setup_calls env) ++ added ++
    match fst (main env fuel initial) with
    | Some _ => shutdown_calls env
    | None => []
    end.
Proof.
  intros H1 H2.
  destruct (main_world fuel H1 H2) as (w & Hext & [Heq | Heq]);
    destruct Hext as ((added & Hadd & Hloop) & _);
    rewrite Heq; cbn [fst snd calls]; exists added; (split; [exact Hloop|]);
    rewrite Hadd, (at_loop_world H1 H2); cbn [calls].
  - now rewrite app_nil_r.
  - now rewrite <- app_assoc.
Qed.

(** What a recogniser that rejects loop calls finds in such a run. *)
Lemma filter_main_calls (p : Call -> bool) (fuel : nat) :
  window <> NULL -> gladLoad_result env <> 0 ->
  (forall c, loop_call c = true -> p c = false) ->
  filter p (calls (snd (main env fuel initial))) =
  filter p (GlfwInit :: hint_calls env ++ setup_calls env) ++
  filter p match fst (main env fuel initial) with
           | Some _ => shutdown_calls env
           | None => []
           end.
Proof.
  intros H1 H2 Hp.
  destruct (main_calls fuel H1 H2) as (added & Hloop & ->).
  now rewrite !filter_app, (filter_loop_calls p added Hp Hloop).
Qed.

End Main.

(** [main] either leaves the loop at the first pass that starts with the
    close flag up, or is cut. *)
Lemma main_cases (env : Env) (fuel : nat) :
  createWindow_result env <> NULL -> gladLoad_result env <> 0 ->
  (exists n,
     (n < fuel)%nat /\
     shouldClose (at_pass env n) = true /\
     (forall m, (m < n)%nat -> shouldClose (at_pass env m) = false) /\
     main env fuel initial =
     (Some 0,
      mkWorld (calls (at_pass env n)
               ++ GlfwWindowShouldClose (createWindow_result env)
                  :: shutdown_calls env)
              false (shouldClose (at_pass env n))
              (sizeCallback (at_pass env n)) (viewport (at_pass env n))
              (remove Z.eq_dec (gen_VAO env) (vertexArrays (at_pass env n)))
              (remove Z.eq_dec (gen_EBO env)
                      (remove Z.eq_dec (gen_VBO env)
                              (buffers (at_pass env n))))
              (textures (at_pass env n)) (boundTexture (at_pass env n))
              (images (at_pass env n)) (freed (at_pass env n))
              (polls (at_pass env n))))
  \/
  ((forall m, (m < fuel)%nat -> shouldClose (at_pass env m) = false) /\
   main env fuel initial = (None, at_pass env fuel)).
Proof.
  intros Hw Hg. rewrite (main_from_loop env fuel Hw Hg). unfold at_pass.
  destruct (render_loop_cases env (createWindow_result env) (gen_texture env)
              (shader_ID env) (gen_VAO env) fuel (at_loop env))
    as [(n & Hn & Hup & Hdown & ->) | (Hdown & ->)].
  - left. exists n. repeat (split; [assumption|]).
    cbn [log calls glfwAlive shouldClose sizeCallback viewport vertexArrays
         buffers textures boundTexture images freed polls].
    now rewrite <- app_assoc.
  - right. now split.
Qed.

(** At the start of every pass the texture bound is the one [main]
    created. *)
Lemma boundTexture_at_pass (env : Env) (n : nat) :
  createWindow_result env <> NULL -> gladLoad_result env <> 0 ->
  boundTexture (at_pass env n) = gen_texture env.
Proof.
  intros Hw Hg. unfold at_pass. destruct n as [|n].
  - cbn [passes]. now rewrite (at_loop_world env Hw Hg).
  - now rewrite passes_S, pass_world.
Qed.

(** The texture parameters of a run that gets past the loader are the four
    set at start-up. *)
Lemma tex_parameters_app (l1 l2 : list Call) :
  tex_parameters (l1 ++ l2) = tex_parameters l1 ++ tex_parameters l2.
Proof.
  induction l1 as [|c l1 IH]; [reflexivity|].
  destruct c; cbn; rewrite ?IH; try reflexivity.
  destruct target; cbn; now rewrite ?IH.
Qed.

Lemma tex_parameters_loop_calls (l : list Call) :
  forallb loop_call l = true -> tex_parameters l = [].
Proof.
  induction l as [|c l IH]; [reflexivity|]. cbn [forallb].
  intros H. apply andb_true_iff in H. destruct H as [Hc Hl].
  destruct c; try discriminate Hc; cbn; now apply IH.
Qed.

Lemma tex_parameters_main (env : Env) (fuel : nat) :
  createWindow_result env <> NULL -> gladLoad_result env <> 0 ->
  tex_parameters (calls (snd (main env fuel initial)))
  = [(GL_TEXTURE_WRAP_S, GL_REPEAT); (GL_TEXTURE_WRAP_T, GL_REPEAT);
     (GL_TEXTURE_MIN_FILTER, GL_LINEAR); (GL_TEXTURE_MAG_FILTER, GL_LINEAR)].
Proof.
  intros Hw Hg.
  destruct (main_calls env fuel Hw Hg) as (added & Hloop & ->).
  rewrite !tex_parameters_app, (tex_parameters_loop_calls added Hloop).
  change (GlfwInit :: hint_calls env ++ setup_calls env)
    with ((GlfwInit :: hint_calls env) ++ setup_calls env).
  rewrite tex_parameters_app. unfold hint_calls, setup_calls, shutdown_calls.
  now destruct (APPLE env), (stbi_data env =? NULL),
               (fst (main env fuel initial)).
Qed.

(** The rounding to [float], on the two literals of the clear colour that are
    not binary fractions, on a binary fraction, on a tie and on one tenth. *)
Lemma to_float_examples :
  to_float 0.2 = (13421773 # 67108864)%Q /\
  to_float 0.3 = (5033165 # 16777216)%Q /\
  to_float 1.0 = 1%Q /\
  to_float (-0.5) = (-1 # 2)%Q /\
  to_float (inject_Z 16777217) = inject_Z 16777216 /\
  to_float (inject_Z 16777219) = inject_Z 16777220 /\
  to_float 0.1 = (13421773 # 134217728)%Q.
Proof. repeat split. Qed.

(** ** Rounding to [float] *)

(** [round_even] is within one half of its argument. *)
Lemma round_even_nearest (y : Q) :
  (inject_Z (round_even y) - y <= 1 # 2 /\ y - inject_Z (round_even y) <= 1 # 2)%Q.
Proof.
  destruct y as [n d]. unfold round_even. cbn [Qnum Qden].
  pose proof (Z.div_mod n (Z.pos d) ltac:(lia)) as Hdm.
  pose proof (Z.mod_pos_bound n (Z.pos d) ltac:(lia)) as Hr.
  set (f := n / Z.pos d) in *. set (r := n mod Z.pos d) in *.
  destruct (Z.compare_spec (2 * r) (Z.pos d)) as [He | Hl | Hg];
    [destruct (Z.even f)| |];
    unfold Qle, Qminus, Qplus, Qopp, inject_Z; cbn [Qnum Qden];
    split; nia.
Qed.

(** Half way between two integers, [round_even] takes the even one. *)
Lemma round_even_tie (y : Q) :
  2 * (Qnum y mod Z.pos (Qden y)) = Z.pos (Qden y) ->
  Z.even (round_even y) = true.
Proof.
  intros H. unfold round_even. rewrite H, Z.compare_refl.
  destruct (Z.even (Qnum y / Z.pos (Qden y))) eqn:He; [exact He|].
  rewrite Z.even_add, He. reflexivity.
Qed.

Lemma pow2_pos (e : Z) : (0 < pow2 e)%Q.
Proof.
  unfold pow2. destruct (0 <=? e) eqn:He.
  - apply Z.leb_le in He. unfold Qlt. cbn. 
    pose proof (Z.pow_pos_nonneg 2 e ltac:(lia) He). lia.
  - reflexivity.
Qed.

(** [nearest_float x] is within half a spacing of [x]. *)
Lemma nearest_float_error (x : Q) :
  let q := pow2 (Z.max (floor_log2 x) (-126) - 23) in
  (nearest_float x - x <= q / 2 /\ x - nearest_float x <= q / 2)%Q.
Proof.
  cbv zeta. unfold nearest_float.
  set (q := pow2 (Z.max (floor_log2 x) (-126) - 23)).
  pose proof (pow2_pos (Z.max (floor_log2 x) (-126) - 23)) as Hq. fold q in Hq.
  destruct (round_even_nearest (x / q)) as [H1 H2].
  set (n := inject_Z (round_even (x / q))) in *.
  assert (Hx : (x == (x / q) * q)%Q) by (field; lra).
  set (y := (x / q)%Q) in *. clearbody y n.
  assert (Ha : ((n - y) * q <= (1 # 2) * q)%Q)
    by (apply Qmult_le_compat_r; lra).
  assert (Hb : ((y - n) * q <= (1 # 2) * q)%Q)
    by (apply Qmult_le_compat_r; lra).
  assert (Hh : (q / 2 == (1 # 2) * q)%Q) by field.
  split; rewrite Hx, Hh.
  - assert (He : (n * q - y * q == (n - y) * q)%Q) by ring.
    now rewrite He.
  - assert (He : (y * q - n * q == (y - n) * q)%Q) by ring.
    now rewrite He.
Qed.

(** [pow2] is the power of two: [2 ^ (a - b) * 2 ^ b = 2 ^ a]. *)
Lemma pow2_quot (a b : Z) :
  0 <= a -> 0 <= b ->
  (pow2 (a - b) * inject_Z (2 ^ b) == inject_Z (2 ^ a))%Q.
Proof.
  intros Ha Hb. unfold pow2.
  destruct (0 <=? a - b) eqn:He;
    unfold Qeq, Qmult, inject_Z; cbn [Qnum Qden];
    rewrite ?Pos.mul_1_r, ?Z.mul_1_r, ?Z.mul_1_l.
  - apply Z.leb_le in He. rewrite <- Z.pow_add_r by lia. f_equal. lia.
  - apply Z.leb_gt in He.
    rewrite Z2Pos.id by (apply Z.pow_pos_nonneg; lia).
    rewrite <- Z.pow_add_r by lia. f_equal. lia.
Qed.

(** [floor_log2 x] is the binade of [x > 0]. *)
Lemma floor_log2_spec (x : Q) :
  (0 < x)%Q ->
  (pow2 (floor_log2 x) <= x /\ x < pow2 (floor_log2 x + 1))%Q.
Proof.
  intros Hx. destruct x as [n d]. unfold Qlt in Hx. cbn in Hx.
  assert (Hn : 0 < n) by lia. clear Hx.
  unfold floor_log2. cbn [Qnum Qden].
  set (a := Z.log2 n). set (b := Z.log2 (Z.pos d)).
  assert (Ha : 0 <= a) by apply Z.log2_nonneg.
  assert (Hb : 0 <= b) by apply Z.log2_nonneg.
  destruct (Z.log2_spec n Hn) as [Hn1 Hn2]. fold a in Hn1, Hn2.
  destruct (Z.log2_spec (Z.pos d) ltac:(lia)) as [Hd1 Hd2].
  fold b in Hd1, Hd2.
  assert (Hpa : 0 < 2 ^ a) by (apply Z.pow_pos_nonneg; lia).
  assert (Hpb : 0 < 2 ^ b) by (apply Z.pow_pos_nonneg; lia).
  assert (Hsa : 2 ^ Z.succ a = 2 * 2 ^ a) by (apply Z.pow_succ_r; lia).
  assert (Hsb : 2 ^ Z.succ b = 2 * 2 ^ b) by (apply Z.pow_succ_r; lia).
  assert (Hcmp_le : forall e a' b', 0 <= a' -> 0 <= b' -> e = a' - b' ->
            2 ^ a' * Z.pos d <= n * 2 ^ b' -> (pow2 e <= n # d)%Q).
  { intros e a' b' Ha' Hb' -> H.
    pose proof (pow2_quot a' b' Ha' Hb') as Hq.
    assert (Hpb' : 0 < 2 ^ b') by (apply Z.pow_pos_nonneg; lia).
    assert (Hi : (0 < inject_Z (2 ^ b'))%Q) by (unfold Qlt; cbn; lia).
    apply (Qmult_le_r _ _ (inject_Z (2 ^ b')) Hi). rewrite Hq.
    unfold Qle. cbn. nia. }
  assert (Hcmp_lt : forall e a' b', 0 <= a' -> 0 <= b' -> e = a' - b' ->
            n * 2 ^ b' < 2 ^ a' * Z.pos d -> (n # d < pow2 e)%Q).
  { intros e a' b' Ha' Hb' -> H.
    pose proof (pow2_quot a' b' Ha' Hb') as Hq.
    assert (Hpb' : 0 < 2 ^ b') by (apply Z.pow_pos_nonneg; lia).
    assert (Hi : (0 < inject_Z (2 ^ b'))%Q) by (unfold Qlt; cbn; lia).
    apply (Qmult_lt_r _ _ (inject_Z (2 ^ b')) Hi). rewrite Hq.
    unfold Qlt. cbn. nia. }
  destruct (Qle_bool (pow2 (a - b)) (n # d)) eqn:Hle.
  - split; [now apply Qle_bool_iff|].
    apply (Hcmp_lt _ (Z.succ a) b); [lia | lia | lia |]. nia.
  - split.
    + apply (Hcmp_le _ a (Z.succ b)); [lia | lia | lia |]. nia.
    + replace (a - b - 1 + 1) with (a - b) by lia.
      apply Qnot_le_lt. intros H. apply Qle_bool_iff in H. congruence.
Qed.

(** For [x > 0], [to_float x] is a multiple of the spacing of binary32 around
    [x], within half that spacing of [x]. *)
Lemma to_float_nearest (x : Q) :
  (0 < x)%Q ->
  let q := pow2 (Z.max (floor_log2 x) (-126) - 23) in
  (exists n : Z, (to_float x == inject_Z n * q)%Q) /\
  (to_float x - x <= q / 2 /\ x - to_float x <= q / 2)%Q.
Proof.
  intros Hx. cbv zeta. unfold to_float.
  destruct x as [[|n|n] d]; try (now exfalso). cbn [Qnum].
  split.
  - eexists. rewrite Qred_correct. unfold nearest_float. reflexivity.
  - rewrite Qred_correct. apply nearest_float_error.
Qed.

(** With Escape never down and no close request, [main] never returns,
    whatever the fuel. *)
Lemma main_env_forever (fuel : nat) :
  fst (main env_forever fuel initial) = None.
Proof.
  assert (Hw : createWindow_result env_forever <> NULL) by discriminate.
  assert (Hg : gladLoad_result env_forever <> 0) by discriminate.
  rewrite (main_result env_forever fuel Hw Hg).
  destruct (fst (render_loop _ _ _ _ _ _ _)) eqn:Hleft; [| reflexivity].
  apply render_loop_left in Hleft. destruct Hleft as (n & _ & Hup).
  apply (shouldClose_at_pass env_forever n Hw Hg) in Hup.
  destruct Hup as (m & _ & [H | []]). discriminate H.
Qed.

(** ** Exit status and fatal failures *)

(** C1. [main] returns 0 or -1 and nothing else: -1 exactly when the window
    cannot be created or the loader fails, 0 exactly when both succeed and
    the render loop is left (which happens within [fuel] tests as soon as
    some pass among the first [fuel] starts with the close flag up).  In
    either failure the message is printed and the run stops there: the calls
    issued are written out, the message is the last one but for
    [glfwTerminate] in the first case, and no call of the render loop is
    among them. *)
Theorem main_exit_status (env : Env) (fuel : nat) :
  let r := fst (main env fuel initial) in
  let tr := calls (snd (main env fuel initial)) in
  (forall z, r = Some z -> z = 0 \/ z = -1) /\
  (r = Some (-1) <-> createWindow_result env = NULL \/ gladLoad_result env = 0)
  /\
  (r = Some 0 <->
   createWindow_result env <> NULL /\ gladLoad_result env <> 0 /\
   exists n, (n < fuel)%nat /\ shouldClose (at_pass env n) = true) /\
  (createWindow_result env = NULL ->
   tr = GlfwInit :: hint_calls env
        ++ [GlfwCreateWindow 800 600 "LearnOpenGL";
            Cout "Failed to create GLFW window";
            GlfwTerminate]
   /\ existsb loop_call tr = false) /\
  (createWindow_result env <> NULL -> gladLoad_result env = 0 ->
   tr = GlfwInit :: hint_calls env
        ++ [GlfwCreateWindow 800 600 "LearnOpenGL";
            GlfwMakeContextCurrent (createWindow_result env);
            GlfwSetFramebufferSizeCallback (createWindow_result env);
            GladLoadGLLoader;
            Cout "Failed to initialize GLAD"]
   /\ existsb loop_call tr = false).
Proof.
  cbv zeta.
  destruct (Z.eq_dec (createWindow_result env) NULL) as [Hw | Hw].
  - rewrite (main_no_window env fuel Hw). cbn [fst snd calls].
    split; [| split; [| split; [| split]]].
    + intros z Hz. injection Hz as <-. now right.
    + split; [now left | reflexivity].
    + split; [discriminate | now intros (Hw' & _)].
    + intros _. split; [reflexivity|].
      unfold hint_calls. now destruct (APPLE env).
    + intros Hw'. contradiction.
  - destruct (Z.eq_dec (gladLoad_result env) 0) as [Hg | Hg].
    + rewrite (main_no_glad env fuel Hw Hg). cbn [fst snd calls].
      split; [| split; [| split; [| split]]].
      * intros z Hz. injection Hz as <-. now right.
      * split; [now right | reflexivity].
      * split; [discriminate | now intros (_ & Hg' & _)].
      * intros Hw'. contradiction.
      * intros _ _. split; [reflexivity|].
        unfold hint_calls. now destruct (APPLE env).
    + rewrite (main_result env fuel Hw Hg).
      pose proof (render_loop_left env (createWindow_result env)
                    (gen_texture env) (shader_ID env) (gen_VAO env) fuel
                    (at_loop env)) as Hleft.
      fold (at_pass env) in Hleft.
      destruct (fst (render_loop env fuel (createWindow_result env)
                       (gen_texture env) (shader_ID env) (gen_VAO env)
                       (at_loop env)));
        (split; [| split; [| split; [| split]]]);
        try (intros; contradiction).
      * intros z Hz. injection Hz as <-. now left.
      * split; [discriminate | intros [H | H]; contradiction].
      * split; [intros _ | reflexivity].
        split; [exact Hw | split; [exact Hg | now apply Hleft]].
      * discriminate.
      * split; [discriminate | intros [H | H]; contradiction].
      * split; [discriminate|].
        intros (_ & _ & H). apply Hleft in H. discriminate.
Qed.

Lemma main_exit_status_witness :
  fst (main env_no_window 5 initial) = Some (-1) /\
  fst (main env_no_glad 5 initial) = Some (-1) /\
  fst (main env_ok 5 initial) = Some 0.
Proof.
  destruct (main_exit_status env_no_window 5) as (_ & Hw & _).
  destruct (main_exit_status env_no_glad 5) as (_ & Hg & _).
  destruct (main_exit_status env_ok 5) as (_ & _ & Hok & _).
  split; [| split].
  - apply Hw. left. reflexivity.
  - apply Hg. right. reflexivity.
  - apply Hok. split; [discriminate | split; [discriminate |]].
    exists 3%nat. split; [lia | reflexivity].
Defined.

(** C10. The two fatal paths clean up differently.  When the window cannot
    be created, [glfwTerminate] is called (once, as the last call) before
    [main] returns -1, and GLFW is shut down at the end.  When the loader
    fails, [main] returns -1 with no call of [glfwTerminate] at all, and
    GLFW is still initialised at the end. *)
Theorem fatal_paths_cleanup (env : Env) (fuel : nat) :
  let r := fst (main env fuel initial) in
  let w := snd (main env fuel initial) in
  (createWindow_result env = NULL ->
   r = Some (-1) /\
   filter is_terminate (calls w) = [GlfwTerminate] /\
   last (calls w) GlfwInit = GlfwTerminate /\
   glfwAlive w = false) /\
  (createWindow_result env <> NULL -> gladLoad_result env = 0 ->
   r = Some (-1) /\
   filter is_terminate (calls w) = [] /\
   glfwAlive w = true).
Proof.
  cbv zeta. split.
  - intros Hw. rewrite (main_no_window env fuel Hw). cbn [fst snd calls glfwAlive].
    unfold hint_calls. now destruct (APPLE env).
  - intros Hw Hg. rewrite (main_no_glad env fuel Hw Hg).
    cbn [fst snd calls glfwAlive].
    unfold hint_calls. now destruct (APPLE env).
Qed.

Lemma fatal_paths_cleanup_witness :
  filter is_terminate (calls (snd (main env_no_window 5 initial)))
    = [GlfwTerminate] /\
  filter is_terminate (calls (snd (main env_no_glad 5 initial))) = [].
Proof.
  destruct (fatal_paths_cleanup env_no_window 5) as (Hw & _).
  destruct (fatal_paths_cleanup env_no_glad 5) as (_ & Hg).
  split.
  - apply Hw. reflexivity.
  - apply Hg; [discriminate | reflexivity].
Defined.

(** ** Decoding the image *)

(** C2, as the specification states it, fails: with [stbi_load] answering
    [NULL], no upload call is issued. *)
Lemma upload_after_failed_decode_counterexample :
  ~ (stbi_data env_no_image = NULL ->
     existsb is_upload (calls (snd (main env_no_image 5 initial))) = true).
Proof. intros H. specialize (H eq_refl). discriminate H. Qed.

(** C2, amended.  When [stbi_load] answers [NULL], the message is printed
    and [main] does not stop: it does not return -1 and goes on to the render
    loop.  The upload is skipped: neither [glTexImage2D] nor
    [glGenerateMipmap] is called, so that the texture object, created, bound
    and configured, has no image.  Created, bound and configured: the run
    has, one after the other, [glGenTextures], [glBindTexture] of the name
    it gave, the four [glTexParameteri] (wrap S and T [GL_REPEAT], both
    filters [GL_LINEAR]), [stbi_load], the message and
    [stbi_image_free(NULL)]; these four are the texture parameters set in
    the whole run, and that texture is live and bound in the last world
    reached. *)
Theorem failed_decode_skips_upload (env : Env) (fuel : nat) :
  createWindow_result env <> NULL -> gladLoad_result env <> 0 ->
  stbi_data env = NULL ->
  let r := fst (main env fuel initial) in
  let w := snd (main env fuel initial) in
  In (Cout "Failed to load texture") (calls w) /\
  filter is_upload (calls w) = [] /\
  In (gen_texture env) (textures w) /\
  image_of (gen_texture env) (images w) = None /\
  r <> Some (-1) /\
  ((0 < fuel)%nat ->
   In (GlfwWindowShouldClose (createWindow_result env)) (calls w)) /\
  (exists before after,
     calls w
     = before
       ++ [GlGenTextures 1;
           GlBindTexture GL_TEXTURE_2D (gen_texture env);
           GlTexParameteri GL_TEXTURE_2D GL_TEXTURE_WRAP_S GL_REPEAT;
           GlTexParameteri GL_TEXTURE_2D GL_TEXTURE_WRAP_T GL_REPEAT;
           GlTexParameteri GL_TEXTURE_2D GL_TEXTURE_MIN_FILTER GL_LINEAR;
           GlTexParameteri GL_TEXTURE_2D GL_TEXTURE_MAG_FILTER GL_LINEAR;
           StbiLoad "container.jpg" 0;
           Cout "Failed to load texture";
           StbiImageFree NULL]
       ++ after) /\
  tex_parameters (calls w)
  = [(GL_TEXTURE_WRAP_S, GL_REPEAT); (GL_TEXTURE_WRAP_T, GL_REPEAT);
     (GL_TEXTURE_MIN_FILTER, GL_LINEAR); (GL_TEXTURE_MAG_FILTER, GL_LINEAR)]
  /\
  boundTexture w = gen_texture env.
Proof.
  intros Hw Hg Hd. cbv zeta.
  assert (Hd' : (stbi_data env =? NULL) = true) by now apply Z.eqb_eq.
  split; [| split; [| split; [| split; [| split; [| split; [| split;
    [| split]]]]]]].
  9: { destruct (main_cases env fuel Hw Hg)
         as [(n & _ & _ & _ & ->) | (_ & ->)]; cbn [snd boundTexture];
         now apply boundTexture_at_pass. }
  8: now apply tex_parameters_main.
  7: { destruct (main_calls env fuel Hw Hg) as (added & _ & ->).
       exists (GlfwInit :: hint_calls env
               ++ [GlfwCreateWindow 800 600 "LearnOpenGL";
                   GlfwMakeContextCurrent (createWindow_result env);
                   GlfwSetFramebufferSizeCallback (createWindow_result env);
                   GladLoadGLLoader;
                   ShaderCtor "4.1.texturevs.txt" "4.1.texturefs.txt";
                   GlGenVertexArrays 1; GlGenBuffers 1; GlGenBuffers 1;
                   GlBindVertexArray (gen_VAO env);
                   GlBindBuffer GL_ARRAY_BUFFER (gen_VBO env);
                   GlBufferData GL_ARRAY_BUFFER 128 (Floats vertices)
                                GL_STATIC_DRAW;
                   GlBindBuffer GL_ELEMENT_ARRAY_BUFFER (gen_EBO env);
                   GlBufferData GL_ELEMENT_ARRAY_BUFFER 24 (UInts indices)
                                GL_STATIC_DRAW;
                   GlVertexAttribPointer 0 3 GL_FLOAT GL_FALSE 32 0;
                   GlEnableVertexAttribArray 0;
                   GlVertexAttribPointer 1 3 GL_FLOAT GL_FALSE 32 12;
                   GlEnableVertexAttribArray 1;
                   GlVertexAttribPointer 2 2 GL_FLOAT GL_FALSE 32 24;
                   GlEnableVertexAttribArray 2]).
       exists (added ++ match fst (main env fuel initial) with
                        | Some _ => shutdown_calls env
                        | None => []
                        end).
       unfold setup_calls. rewrite Hd', Hd.
       cbn [app]. rewrite <- !app_assoc. cbn [app]. reflexivity. }
  - destruct (main_calls env fuel Hw Hg) as (added & _ & ->).
    apply in_or_app. left. right. apply in_or_app. right.
    unfold setup_calls. rewrite Hd'. apply in_or_app. right.
    apply in_or_app. left. now left.
  - rewrite (filter_main_calls env is_upload fuel Hw Hg)
      by (now intros []).
    unfold hint_calls, setup_calls. rewrite Hd'.
    now destruct (APPLE env), (fst (main env fuel initial)).
  - destruct (main_world env fuel Hw Hg)
      as (w & (_ & _ & _ & _ & _ & Ht & _) & [-> | ->]);
      cbn [snd textures]; rewrite Ht, (at_loop_world env Hw Hg);
      cbn [textures]; now left.
  - destruct (main_world env fuel Hw Hg)
      as (w & (_ & _ & _ & _ & _ & _ & Hi & _) & [-> | ->]);
      cbn [snd images]; rewrite Hi, (at_loop_world env Hw Hg);
      cbn [images]; now rewrite Hd'.
  - rewrite (main_result env fuel Hw Hg).
    now destruct (fst (render_loop _ _ _ _ _ _ _)).
  - intros Hfuel. destruct fuel as [|fuel]; [lia|].
    rewrite (main_from_loop env (S fuel) Hw Hg), render_loop_S.
    set (P := pass env (createWindow_result env) (gen_texture env)
                   (shader_ID env) (gen_VAO env) (at_loop env)).
    assert (HP : In (GlfwWindowShouldClose (createWindow_result env))
                    (calls P)).
    { unfold P. rewrite pass_world. cbn [calls].
      apply in_or_app. right. now left. }
    pose proof (loop_extends_render_loop env (createWindow_result env)
                  (gen_texture env) (shader_ID env) (gen_VAO env) fuel P)
      as ((added & Hadd & _) & _).
    destruct (shouldClose (at_loop env)).
    + cbn. apply in_or_app. left. apply in_or_app. right. now left.
    + destruct (render_loop env fuel _ _ _ _ P) as [[|] w'];
        cbn [snd calls] in *; rewrite Hadd.
      * apply in_or_app. left. apply in_or_app. now left.
      * apply in_or_app. now left.
Qed.

Lemma failed_decode_skips_upload_witness :
  filter is_upload (calls (snd (main env_no_image 5 initial))) = [] /\
  fst (main env_no_image 5 initial) <> Some (-1).
Proof.
  assert (Hw : createWindow_result env_no_image <> NULL) by discriminate.
  assert (Hg : gladLoad_result env_no_image <> 0) by discriminate.
  destruct (failed_decode_skips_upload env_no_image 5 Hw Hg eq_refl)
    as (_ & Hup & _ & _ & Hr & _).
  split; [exact Hup | exact Hr].
Defined.

(** C3. In a run that reaches the decode call, [stbi_load] is called once
    and [stbi_image_free] once after it, with the pointer [stbi_load]
    answered, whether decoding failed or not; after a failed decode that
    pointer is [NULL]. *)
Theorem image_freed_once (env : Env) (fuel : nat) :
  createWindow_result env <> NULL -> gladLoad_result env <> 0 ->
  let w := snd (main env fuel initial) in
  filter is_decode (calls w)
    = [StbiLoad "container.jpg" 0; StbiImageFree (stbi_data env)] /\
  filter is_free (calls w) = [StbiImageFree (stbi_data env)] /\
  freed w = [stbi_data env] /\
  (stbi_data env = NULL -> filter is_free (calls w) = [StbiImageFree NULL]).
Proof.
  intros Hw Hg. cbv zeta.
  assert (Hfree : filter is_free (calls (snd (main env fuel initial)))
                  = [StbiImageFree (stbi_data env)]).
  { rewrite (filter_main_calls env is_free fuel Hw Hg) by (now intros []).
    unfold hint_calls, setup_calls.
    now destruct (APPLE env), (stbi_data env =? NULL),
                 (fst (main env fuel initial)). }
  split; [| split; [exact Hfree | split]].
  - rewrite (filter_main_calls env is_decode fuel Hw Hg) by (now intros []).
    unfold hint_calls, setup_calls.
    now destruct (APPLE env), (stbi_data env =? NULL),
                 (fst (main env fuel initial)).
  - destruct (main_world env fuel Hw Hg)
      as (w & (_ & _ & _ & _ & _ & _ & _ & Hf) & [-> | ->]);
      cbn [snd freed]; now rewrite Hf, (at_loop_world env Hw Hg).
  - intros Hd. now rewrite Hfree, Hd.
Qed.

Lemma image_freed_once_witness :
  filter is_free (calls (snd (main env_ok 5 initial))) = [StbiImageFree 8192]
  /\
  filter is_free (calls (snd (main env_no_image 5 initial)))
    = [StbiImageFree NULL].
Proof.
  assert (Hw : createWindow_result env_ok <> NULL) by discriminate.
  assert (Hg : gladLoad_result env_ok <> 0) by discriminate.
  assert (Hw' : createWindow_result env_no_image <> NULL) by discriminate.
  assert (Hg' : gladLoad_result env_no_image <> 0) by discriminate.
  destruct (image_freed_once env_ok 5 Hw Hg) as (_ & Hok & _).
  destruct (image_freed_once env_no_image 5 Hw' Hg') as (_ & _ & _ & Hno).
  split; [exact Hok | apply Hno; reflexivity].
Defined.

(** ** The vertex data *)

(** C4. The three attribute declarations [main] issues are: attribute 0,
    3 floats at byte 0; attribute 1, 3 floats at byte 12; attribute 2,
    2 floats at byte 24; each with a stride of 32 bytes, which is 8 floats.
    The three fields follow one another and fill the stride, and the buffer
    uploaded is the 128 bytes of [vertices], that is 4 strides: reading
    vertices 0 to 3 through the three declarations gives back [vertices],
    float by float, and there is no vertex 4. *)
Theorem vertex_layout (env : Env) (fuel : nat) :
  createWindow_result env <> NULL -> gladLoad_result env <> 0 ->
  let tr := calls (snd (main env fuel initial)) in
  attrib_pointers tr = [(0, 3, 32, 0); (1, 3, 32, 12); (2, 2, 32, 24)] /\
  In (GlBufferData GL_ARRAY_BUFFER 128 (Floats vertices) GL_STATIC_DRAW) tr /\
  8 * sizeof_float = 32 /\
  0 + 3 * sizeof_float = 12 /\
  12 + 3 * sizeof_float = 24 /\
  24 + 2 * sizeof_float = 32 /\
  sizeof_vertices = 4 * 32 /\
  map (fetch vertices 3 32 0) [0; 1; 2; 3]
    = [Some [0.5; 0.5; 0.0]; Some [0.5; -0.5; 0.0];
       Some [-0.5; -0.5; 0.0]; Some [-0.5; 0.5; 0.0]]%Q /\
  map (fetch vertices 3 32 12) [0; 1; 2; 3]
    = [Some [1.0; 0.0; 0.0]; Some [0.0; 1.0; 0.0];
       Some [0.0; 0.0; 1.0]; Some [1.0; 1.0; 0.0]]%Q /\
  map (fetch vertices 2 32 24) [0; 1; 2; 3]
    = [Some [1.0; 1.0]; Some [1.0; 0.0];
       Some [0.0; 0.0]; Some [0.0; 1.0]]%Q /\
  flat_map (fun v => match fetch vertices 3 32 0 v,
                           fetch vertices 3 32 12 v,
                           fetch vertices 2 32 24 v with
                     | Some p, Some c, Some t => p ++ c ++ t
                     | _, _, _ => []
                     end) [0; 1; 2; 3] = vertices /\
  fetch vertices 3 32 0 4 = None /\
  fetch vertices 3 32 12 4 = None /\
  fetch vertices 2 32 24 4 = None.
Proof.
  intros Hw Hg. cbv zeta.
  destruct (main_calls env fuel Hw Hg) as (added & Hloop & ->).
  split; [| split; [| repeat split]].
  - assert (Hattr : forall l, forallb loop_call l = true ->
                              attrib_pointers l = []).
    { induction l as [|c l IH]; [reflexivity|]. cbn [forallb].
      intros H. apply andb_true_iff in H. destruct H as [Hc Hl].
      destruct c; try discriminate Hc; cbn; now apply IH. }
    assert (Happ : forall l1 l2,
               attrib_pointers (l1 ++ l2)
               = attrib_pointers l1 ++ attrib_pointers l2).
    { induction l1 as [|c l1 IH]; intros l2; [reflexivity|].
      destruct c; cbn; rewrite ?IH; try reflexivity.
      destruct type; cbn; now rewrite ?IH. }
    rewrite !Happ, (Hattr added Hloop).
    change (GlfwInit :: hint_calls env ++ setup_calls env)
      with ((GlfwInit :: hint_calls env) ++ setup_calls env).
    rewrite Happ. unfold hint_calls, setup_calls, shutdown_calls.
    now destruct (APPLE env), (stbi_data env =? NULL),
                 (fst (main env fuel initial)).
  - apply in_or_app. left. right. apply in_or_app. right.
    unfold setup_calls. apply in_or_app. left. cbn. tauto.
Qed.

Lemma vertex_layout_witness :
  attrib_pointers (calls (snd (main env_ok 5 initial)))
    = [(0, 3, 32, 0); (1, 3, 32, 12); (2, 2, 32, 24)].
Proof.
  assert (Hw : createWindow_result env_ok <> NULL) by discriminate.
  assert (Hg : gladLoad_result env_ok <> 0) by discriminate.
  exact (proj1 (vertex_layout env_ok 5 Hw Hg)).
Defined.

(** C9. Read through attribute 2 as declared, the texture coordinates of the
    four vertices are (1,1), (1,0), (0,0) and (0,1), each coordinate within
    [0,1], while the wrap mode set for both the S and the T axis is
    [GL_REPEAT]. *)
Theorem texcoords_in_unit_square (env : Env) (fuel : nat) :
  createWindow_result env <> NULL -> gladLoad_result env <> 0 ->
  map texcoord [0; 1; 2; 3]
    = [Some [1.0; 1.0]; Some [1.0; 0.0];
       Some [0.0; 0.0]; Some [0.0; 1.0]]%Q /\
  (forall v c, In v [0; 1; 2; 3] -> texcoord v = Some c ->
               Forall in_unit c) /\
  tex_parameters (calls (snd (main env fuel initial)))
    = [(GL_TEXTURE_WRAP_S, GL_REPEAT); (GL_TEXTURE_WRAP_T, GL_REPEAT);
       (GL_TEXTURE_MIN_FILTER, GL_LINEAR); (GL_TEXTURE_MAG_FILTER, GL_LINEAR)].
Proof.
  intros Hw Hg. split; [reflexivity | split].
  - intros v c Hv Hc. cbn in Hv.
    destruct Hv as [<- | [<- | [<- | [<- | []]]]];
      vm_compute in Hc; injection Hc as <-;
      repeat constructor; unfold in_unit, Qle; cbn; lia.
  - destruct (main_calls env fuel Hw Hg) as (added & Hloop & ->).
    assert (Hpar : forall l, forallb loop_call l = true ->
                             tex_parameters l = []).
    { induction l as [|c l IH]; [reflexivity|]. cbn [forallb].
      intros H. apply andb_true_iff in H. destruct H as [Hc Hl].
      destruct c; try discriminate Hc; cbn; now apply IH. }
    assert (Happ : forall l1 l2,
               tex_parameters (l1 ++ l2)
               = tex_parameters l1 ++ tex_parameters l2).
    { induction l1 as [|c l1 IH]; intros l2; [reflexivity|].
      destruct c; cbn; rewrite ?IH; try reflexivity.
      destruct target; cbn; now rewrite ?IH. }
    rewrite !Happ, (Hpar added Hloop).
    change (GlfwInit :: hint_calls env ++ setup_calls env)
      with ((GlfwInit :: hint_calls env) ++ setup_calls env).
    rewrite Happ. unfold hint_calls, setup_calls, shutdown_calls.
    now destruct (APPLE env), (stbi_data env =? NULL),
                 (fst (main env fuel initial)).
Qed.

Lemma texcoords_in_unit_square_witness :
  tex_parameters (calls (snd (main env_ok 5 initial)))
    = [(GL_TEXTURE_WRAP_S, GL_REPEAT); (GL_TEXTURE_WRAP_T, GL_REPEAT);
       (GL_TEXTURE_MIN_FILTER, GL_LINEAR); (GL_TEXTURE_MAG_FILTER, GL_LINEAR)].
Proof.
  assert (Hw : createWindow_result env_ok <> NULL) by discriminate.
  assert (Hg : gladLoad_result env_ok <> 0) by discriminate.
  exact (proj2 (proj2 (texcoords_in_unit_square env_ok 5 Hw Hg))).
Defined.

(** ** The geometry drawn *)

Lemma filter_app_nil (p : Call -> bool) (l1 l2 : list Call) :
  filter p l2 = [] -> filter p (l1 ++ l2) = filter p l1.
Proof. intros H. now rewrite filter_app, H, app_nil_r. Qed.

(** A pass draws once. *)
Lemma filter_draw_pass_calls (env : Env) (window : pointer)
      (texture ourShader VAO : Z) (w : World) :
  filter is_draw (pass_calls env window texture ourShader VAO w)
  = [GlDrawElements GL_TRIANGLES 6 GL_UNSIGNED_INT 0].
Proof.
  unfold pass_calls.
  assert (Hcb : forall cb l, filter is_draw (callback_calls cb l) = []).
  { intros cb l. induction l as [|[width height|] l IH]; cbn; try exact IH.
    - reflexivity.
    - destruct cb; cbn; exact IH. }
  rewrite !filter_app, Hcb. now destruct (is_press _).
Qed.

Lemma position_0 : position 0 = (0.5, 0.5)%Q.
Proof. reflexivity. Qed.

Lemma position_1 : position 1 = (0.5, -0.5)%Q.
Proof. reflexivity. Qed.

Lemma position_2 : position 2 = (-0.5, -0.5)%Q.
Proof. reflexivity. Qed.

Lemma position_3 : position 3 = (-0.5, 0.5)%Q.
Proof. reflexivity. Qed.

Ltac at_corners :=
  rewrite ?position_0, ?position_1, ?position_2, ?position_3;
  cbn [fst snd].

(** C5. The six indices are all between 0 and 3, and the draw call of the
    render loop turns them into exactly two triangles, (0,1,3) and (1,2,3).
    A point of the plane lies in the quad exactly when it lies in one of the
    two triangles (no gap, nothing outside); no point lies in the interior
    of both; and the points the two closed triangles share are those of the
    segment from vertex 1 to vertex 3. *)
Theorem two_triangles_cover_quad :
  (forall env window texture ourShader VAO w,
     filter is_draw (pass_calls env window texture ourShader VAO w)
     = [GlDrawElements GL_TRIANGLES 6 GL_UNSIGNED_INT 0]) /\
  List.length indices = 6%nat /\
  Forall (fun i => 0 <= i <= 3) indices /\
  drawn 6 = [(0, 1, 3); (1, 2, 3)] /\
  (forall p, in_quad p <-> in_drawn (0, 1, 3) p \/ in_drawn (1, 2, 3) p) /\
  (forall p, ~ (inside_drawn (0, 1, 3) p /\ inside_drawn (1, 2, 3) p)) /\
  (forall p, in_drawn (0, 1, 3) p /\ in_drawn (1, 2, 3) p <->
             on_segment (position 1) (position 3) p).
Proof.
  split; [| split; [reflexivity
                   | split; [| split; [reflexivity | split; [| split]]]]].
  - intros. apply filter_draw_pass_calls.
  - unfold indices. repeat constructor; lia.
  - intros [x y]. unfold in_quad, in_drawn, in_triangle, side.
    at_corners. lra.
  - intros [x y]. unfold inside_drawn, inside_triangle, side.
    at_corners. lra.
  - intros [x y]. unfold in_drawn, in_triangle, on_segment, side.
    at_corners. lra.
Qed.

(** ** The render loop, step by step *)

Lemma steps_app (l1 l2 : list Call) : steps (l1 ++ l2) = steps l1 ++ steps l2.
Proof.
  induction l1 as [|c l1 IH]; [reflexivity|].
  cbn. destruct (step_of c); cbn; now rewrite IH.
Qed.

Lemma steps_callback_calls (cb : option pointer) (l : list Event) :
  steps (callback_calls cb l) = [].
Proof.
  induction l as [|[width height|] l IH]; cbn; try exact IH.
  - reflexivity.
  - destruct cb; cbn; exact IH.
Qed.

(** C6. Every pass of the render loop issues the calls [pass_calls] lists,
    in that order: among them the named steps are, in order, the input check
    (a query of the Escape key, which raises the close flag when the key is
    down), the clear, the binding of texture, program and vertex array, one
    indexed draw call and no other, the buffer swap and the event poll.
    Each turn of the loop first tests the close flag: with the flag up the
    loop is left without another pass, with the flag down a whole pass
    follows.  So the loop is left within [fuel] tests exactly when some pass
    among the first [fuel] starts with the flag up; and in [main] the flag is
    up at the start of pass [n] exactly when Escape was down during an
    earlier pass or an earlier poll delivered a close request. *)
Theorem frame_loop_order (env : Env) (window : pointer)
        (texture ourShader VAO : Z) :
  (forall w,
     calls (pass env window texture ourShader VAO w)
     = calls w ++ pass_calls env window texture ourShader VAO w /\
     steps (pass_calls env window texture ourShader VAO w)
     = [InputCheck; ClearFrame; BindTexture; BindProgram; BindVertexArray;
        DrawCall; SwapBuffers; PollEvents] /\
     filter is_draw (pass_calls env window texture ourShader VAO w)
     = [GlDrawElements GL_TRIANGLES 6 GL_UNSIGNED_INT 0] /\
     shouldClose (snd (processInput env window w))
     = shouldClose w || is_press (key_escape env (polls w))) /\
  (forall fuel w,
     render_loop env (S fuel) window texture ourShader VAO w
     = if shouldClose w
       then (true, log (GlfwWindowShouldClose window) w)
       else render_loop env fuel window texture ourShader VAO
                        (pass env window texture ourShader VAO w)) /\
  (forall fuel w,
     fst (render_loop env fuel window texture ourShader VAO w) = true <->
     exists n, (n < fuel)%nat /\
               shouldClose (passes env window texture ourShader VAO n w)
               = true) /\
  (forall n,
     createWindow_result env <> NULL -> gladLoad_result env <> 0 ->
     (shouldClose (at_pass env n) = true <->
      exists m, (m < n)%nat /\
                (key_escape env m = GLFW_PRESS \/
                 In WindowClose (pending env m)))).
Proof.
  split; [| split; [| split]].
  - intros w. split; [| split; [| split]].
    + now rewrite pass_world.
    + unfold pass_calls. rewrite !steps_app, steps_callback_calls.
      now destruct (is_press _).
    + apply filter_draw_pass_calls.
    + unfold processInput, bind. cbn.
      destruct (key_escape env (polls w)); cbn;
        [now rewrite orb_false_r | now rewrite orb_true_r].
  - intros fuel w. apply render_loop_S.
  - intros fuel w. apply render_loop_left.
  - intros n Hw Hg. now apply shouldClose_at_pass.
Qed.

Lemma frame_loop_order_witness :
  shouldClose (at_pass env_ok 3) = true /\
  shouldClose (at_pass env_no_image 1) = true.
Proof.
  assert (Hw : createWindow_result env_ok <> NULL) by discriminate.
  assert (Hg : gladLoad_result env_ok <> 0) by discriminate.
  assert (Hw' : createWindow_result env_no_image <> NULL) by discriminate.
  assert (Hg' : gladLoad_result env_no_image <> 0) by discriminate.
  split.
  - apply (proj2 (proj2 (proj2 (frame_loop_order env_ok 0 0 0 0))) 3%nat Hw Hg).
    exists 2%nat. split; [lia | left; reflexivity].
  - apply (proj2 (proj2 (proj2 (frame_loop_order env_no_image 0 0 0 0)))
                 1%nat Hw' Hg').
    exists 0%nat. split; [lia | right; now left].
Defined.

(** ** Window size and viewport *)

Lemma resized_app (cb : option pointer) (l1 l2 : list Event)
      (v : option (Z * Z * Z * Z)) :
  resized cb (l1 ++ l2) v = resized cb l2 (resized cb l1 v).
Proof.
  revert v. induction l1 as [|[width height|] l1 IH]; intros v; cbn;
    [reflexivity | destruct cb; apply IH | apply IH].
Qed.

Lemma resized_no_resize (cb : option pointer) (l : list Event)
      (v : option (Z * Z * Z * Z)) :
  existsb is_resize l = false -> resized cb l v = v.
Proof.
  induction l as [|[width height|] l IH]; cbn;
    [reflexivity | discriminate | exact IH].
Qed.

Lemma callback_calls_app (cb : option pointer) (l1 l2 : list Event) :
  callback_calls cb (l1 ++ l2) = callback_calls cb l1 ++ callback_calls cb l2.
Proof.
  induction l1 as [|[width height|] l1 IH]; cbn;
    [reflexivity | destruct cb; cbn; now rewrite IH | exact IH].
Qed.

(** Throughout the render loop of [main] the callback stays installed on the
    window. *)
Lemma sizeCallback_at_pass (env : Env) (n : nat) :
  createWindow_result env <> NULL -> gladLoad_result env <> 0 ->
  sizeCallback (at_pass env n) = Some (createWindow_result env) /\
  polls (at_pass env n) = n.
Proof.
  intros Hw Hg. unfold at_pass. split.
  - destruct (loop_extends_passes env (createWindow_result env)
                (gen_texture env) (shader_ID env) (gen_VAO env) n
                (at_loop env)) as (_ & _ & -> & _).
    now rewrite (at_loop_world env Hw Hg).
  - rewrite polls_passes. now rewrite (at_loop_world env Hw Hg).
Qed.

(** C7. The window is asked for with the fixed size 800 x 600, on every run.
    The resize callback, given the dimensions [width] and [height], calls
    [glViewport(0, 0, width, height)] and nothing else, which makes the
    viewport exactly (0, 0, width, height).  In [main] the callback runs for
    every size event a poll delivers: after the poll the viewport is that of
    the last size event delivered. *)
Theorem resize_sets_viewport (env : Env) :
  SCR_WIDTH = 800 /\ SCR_HEIGHT = 600 /\
  (forall fuel,
     In (GlfwCreateWindow 800 600 "LearnOpenGL")
        (calls (snd (main env fuel initial)))) /\
  (forall window width height w,
     framebuffer_size_callback window width height w
     = (tt, set_viewport (Some (0, 0, width, height))
                         (log (GlViewport 0 0 width height) w))) /\
  (forall window width height w,
     viewport (snd (framebuffer_size_callback window width height w))
     = Some (0, 0, width, height)) /\
  (forall n before after width height,
     createWindow_result env <> NULL -> gladLoad_result env <> 0 ->
     pending env n = before ++ FramebufferSize width height :: after ->
     existsb is_resize after = false ->
     viewport (at_pass env (S n)) = Some (0, 0, width, height) /\
     In (GlViewport 0 0 width height) (calls (at_pass env (S n)))).
Proof.
  split; [reflexivity | split; [reflexivity | split; [| split; [| split]]]].
  - intros fuel.
    destruct (Z.eq_dec (createWindow_result env) NULL) as [Hw | Hw];
      [| destruct (Z.eq_dec (gladLoad_result env) 0) as [Hg | Hg]].
    + rewrite (main_no_window env fuel Hw). cbn [snd calls].
      right. apply in_or_app. right. now left.
    + rewrite (main_no_glad env fuel Hw Hg). cbn [snd calls].
      right. apply in_or_app. right. now left.
    + destruct (main_calls env fuel Hw Hg) as (added & _ & ->).
      apply in_or_app. left. right. apply in_or_app. right.
      unfold setup_calls. apply in_or_app. left. now left.
  - reflexivity.
  - reflexivity.
  - intros n before after width height Hw Hg Hpend Hafter.
    destruct (sizeCallback_at_pass env n Hw Hg) as (Hcb & Hpolls).
    unfold at_pass in *. rewrite passes_S, pass_world.
    cbn [viewport calls]. rewrite Hcb, Hpolls, Hpend. split.
    + rewrite resized_app. cbn [resized].
      now apply resized_no_resize.
    + apply in_or_app. right. unfold pass_calls.
      rewrite Hcb, Hpolls, Hpend, callback_calls_app.
      apply in_or_app. right. apply in_or_app. right.
      apply in_or_app. right. apply in_or_app. right. now left.
Qed.

Lemma resize_sets_viewport_witness :
  viewport (at_pass env_ok 1) = Some (0, 0, 1024, 768).
Proof.
  assert (Hw : createWindow_result env_ok <> NULL) by discriminate.
  assert (Hg : gladLoad_result env_ok <> 0) by discriminate.
  destruct (resize_sets_viewport env_ok) as (_ & _ & _ & _ & _ & H).
  exact (proj1 (H 0%nat [] [] 1024 768 Hw Hg eq_refl eq_refl)).
Defined.

(** ** Shutdown *)

(** C8. No run ever calls [glDeleteTextures].  When [main] returns 0, its
    last calls are [glDeleteVertexArrays] on the vertex array,
    [glDeleteBuffers] on the vertex buffer, [glDeleteBuffers] on the element
    buffer and [glfwTerminate]; at the end none of the three names is live
    any more, while the texture name still is.  And in every run that creates
    the texture, the texture is live in the last world reached. *)
Theorem geometry_deleted_texture_kept (env : Env) (fuel : nat) :
  let r := fst (main env fuel initial) in
  let w := snd (main env fuel initial) in
  filter is_delete_texture (calls w) = [] /\
  (r = Some 0 ->
   (exists before,
      calls w = before ++ [GlDeleteVertexArrays 1 (gen_VAO env);
                           GlDeleteBuffers 1 (gen_VBO env);
                           GlDeleteBuffers 1 (gen_EBO env);
                           GlfwTerminate]) /\
   ~ In (gen_VAO env) (vertexArrays w) /\
   ~ In (gen_VBO env) (buffers w) /\
   ~ In (gen_EBO env) (buffers w) /\
   textures w = [gen_texture env]) /\
  (createWindow_result env <> NULL -> gladLoad_result env <> 0 ->
   textures w = [gen_texture env]).
Proof.
  cbv zeta.
  destruct (Z.eq_dec (createWindow_result env) NULL) as [Hw | Hw];
    [| destruct (Z.eq_dec (gladLoad_result env) 0) as [Hg | Hg]].
  - rewrite (main_no_window env fuel Hw). cbn [fst snd calls].
    split; [| split; [discriminate | contradiction]].
    unfold hint_calls. now destruct (APPLE env).
  - rewrite (main_no_glad env fuel Hw Hg). cbn [fst snd calls].
    split; [| split; [discriminate | contradiction]].
    unfold hint_calls. now destruct (APPLE env).
  - split; [| split].
    + rewrite (filter_main_calls env is_delete_texture fuel Hw Hg)
        by (now intros []).
      unfold hint_calls, setup_calls.
      now destruct (APPLE env), (stbi_data env =? NULL),
                   (fst (main env fuel initial)).
    + destruct (main_world env fuel Hw Hg)
        as (w & (_ & _ & _ & Hva & Hb & Ht & _) & [-> | ->]);
        cbn [fst snd]; [discriminate|]. intros _.
      cbn [calls vertexArrays buffers textures].
      split; [now exists (calls w) | split; [| split; [| split]]].
      * apply remove_In.
      * intros H. apply in_remove in H. destruct H as [H _].
        now apply remove_In in H.
      * apply remove_In.
      * now rewrite Ht, (at_loop_world env Hw Hg).
    + intros _ _.
      destruct (main_world env fuel Hw Hg)
        as (w & (_ & _ & _ & _ & _ & Ht & _) & [-> | ->]);
        cbn [snd textures]; now rewrite Ht, (at_loop_world env Hw Hg).
Qed.

Lemma geometry_deleted_texture_kept_witness :
  vertexArrays (snd (main env_ok 5 initial)) = [] /\
  buffers (snd (main env_ok 5 initial)) = [] /\
  textures (snd (main env_ok 5 initial)) = [gen_texture env_ok].
Proof.
  destruct (geometry_deleted_texture_kept env_ok 5) as (_ & H & _).
  destruct (H eq_refl) as (_ & _ & _ & _ & Ht).
  split; [reflexivity | split; [reflexivity | exact Ht]].
Defined.

(** * Further properties of the runs *)

(** ** Runs, pass by pass *)

Section Frames.

Variable env : Env.
Variable window : pointer.
Variables texture ourShader VAO : Z.

(** What a recogniser finds after [n] passes, when what it finds in a pass
    depends on the number of polls only. *)
Lemma filter_calls_passes (p : Call -> bool) (f : nat -> list Call)
      (cb : option pointer) (n : nat) (w : World) :
  (forall w', sizeCallback w' = cb ->
     filter p (pass_calls env window texture ourShader VAO w')
     = f (polls w')) ->
  sizeCallback w = cb ->
  filter p (calls (passes env window texture ourShader VAO n w))
  = filter p (calls w) ++ flat_map f (seq (polls w) n).
Proof.
  intros Hf Hcb. induction n as [|n IH].
  - cbn. now rewrite app_nil_r.
  - rewrite passes_S, pass_world. cbn [calls].
    rewrite filter_app, IH, seq_S, flat_map_app, <- app_assoc. cbn [flat_map].
    rewrite app_nil_r, Hf.
    + now rewrite polls_passes.
    + destruct (loop_extends_passes env window texture ourShader VAO n w)
        as (_ & _ & -> & _). exact Hcb.
Qed.

End Frames.

(** What a recogniser finds in a run that gets past the loader, when what it
    finds in a pass depends on the number of polls only. *)
Lemma filter_main_frames (env : Env) (p : Call -> bool)
      (f : nat -> list Call) (fuel : nat) :
  createWindow_result env <> NULL -> gladLoad_result env <> 0 ->
  (forall w, sizeCallback w = Some (createWindow_result env) ->
     filter p (pass_calls env (createWindow_result env) (gen_texture env)
                          (shader_ID env) (gen_VAO env) w)
     = f (polls w)) ->
  p (GlfwWindowShouldClose (createWindow_result env)) = false ->
  filter p (calls (snd (main env fuel initial)))
  = filter p (GlfwInit :: hint_calls env ++ setup_calls env)
    ++ flat_map f (seq 0 (polls (snd (main env fuel initial))))
    ++ filter p match fst (main env fuel initial) with
                | Some _ => shutdown_calls env
                | None => []
                end.
Proof.
  intros Hw Hg Hf Htest.
  assert (Hpass : forall n,
            filter p (calls (at_pass env n))
            = filter p (GlfwInit :: hint_calls env ++ setup_calls env)
              ++ flat_map f (seq 0 n)).
  { intros n. unfold at_pass.
    rewrite (filter_calls_passes env (createWindow_result env)
               (gen_texture env) (shader_ID env) (gen_VAO env) p f
               (Some (createWindow_result env)) n (at_loop env) Hf);
      now rewrite (at_loop_world env Hw Hg). }
  destruct (main_cases env fuel Hw Hg)
    as [(n & _ & _ & _ & ->) | (_ & ->)]; cbn [fst snd calls polls].
  - destruct (sizeCallback_at_pass env n Hw Hg) as (_ & ->).
    rewrite filter_app, Hpass, <- app_assoc. cbn [filter]. now rewrite Htest.
  - destruct (sizeCallback_at_pass env fuel Hw Hg) as (_ & ->).
    now rewrite Hpass, app_nil_r.
Qed.

Lemma flat_map_single (c : Call) (a n : nat) :
  flat_map (fun _ => [c]) (seq a n) = repeat c n.
Proof.
  revert a. induction n as [|n IH]; intros a; [reflexivity|].
  cbn. now rewrite IH.
Qed.

Lemma flat_map_nil (f : nat -> list Call) (a n : nat) :
  (forall m, (a <= m < a + n)%nat -> f m = []) ->
  flat_map f (seq a n) = [].
Proof.
  revert a. induction n as [|n IH]; intros a Hf; [reflexivity|].
  cbn. rewrite (Hf a) by lia. apply IH. intros m Hm. apply Hf. lia.
Qed.

(** A recogniser that rejects [glViewport] finds nothing among the calls of
    the callback; the recogniser of [glViewport] finds them all. *)
Lemma filter_callback_calls (p : Call -> bool) (cb : option pointer)
      (l : list Event) :
  (forall x y width height, p (GlViewport x y width height) = false) ->
  filter p (callback_calls cb l) = [].
Proof.
  intros Hp. induction l as [|[width height|] l IH]; cbn; try exact IH.
  - reflexivity.
  - destruct cb; cbn; [rewrite Hp|]; exact IH.
Qed.

Lemma filter_viewport_callback_calls (cb : option pointer) (l : list Event) :
  filter is_viewport (callback_calls cb l) = callback_calls cb l.
Proof.
  induction l as [|[width height|] l IH]; cbn; try exact IH.
  - reflexivity.
  - destruct cb; cbn; [now rewrite IH | exact IH].
Qed.

(** What a recogniser finds in a run when it finds one and the same call in
    every pass and none outside the loop. *)
Lemma filter_main_once_per_pass (env : Env) (p : Call -> bool) (c : Call)
      (fuel : nat) :
  createWindow_result env <> NULL -> gladLoad_result env <> 0 ->
  (forall w,
     filter p (pass_calls env (createWindow_result env) (gen_texture env)
                          (shader_ID env) (gen_VAO env) w) = [c]) ->
  p (GlfwWindowShouldClose (createWindow_result env)) = false ->
  (forall l, filter p (GlfwInit :: hint_calls env ++ setup_calls env ++ l)
             = filter p l) ->
  filter p (shutdown_calls env) = [] ->
  filter p (calls (snd (main env fuel initial)))
  = repeat c (polls (snd (main env fuel initial))).
Proof.
  intros Hw Hg Hpass Htest Hsetup Hdown.
  rewrite (filter_main_frames env p (fun _ => [c]) fuel Hw Hg)
    by (intros; auto).
  rewrite flat_map_single.
  specialize (Hsetup []). rewrite app_nil_r in Hsetup.
  rewrite Hsetup. cbn [app filter].
  destruct (fst (main env fuel initial)); [rewrite Hdown|];
    now rewrite app_nil_r.
Qed.

(** A run draws once per completed pass. *)
Lemma draws_main (env : Env) (fuel : nat) :
  createWindow_result env <> NULL -> gladLoad_result env <> 0 ->
  filter is_draw (calls (snd (main env fuel initial)))
  = repeat (GlDrawElements GL_TRIANGLES 6 GL_UNSIGNED_INT 0)
           (polls (snd (main env fuel initial))).
Proof.
  intros Hw Hg. apply filter_main_once_per_pass; try assumption;
    try reflexivity.
  - intros w. apply filter_draw_pass_calls.
  - intros l. unfold hint_calls, setup_calls.
    now destruct (APPLE env), (stbi_data env =? NULL).
Qed.

(** ** Frames *)



(** X2. The frame in which the exit is asked for is still drawn in full.
    If Escape is first down, or a close request first delivered, in pass [n]
    (counting from 0), then with fuel for [n + 2] tests [main] returns 0
    after exactly [n + 1] polls and [n + 1] draw calls: pass [n] is
    completed, and the loop is left at the next test. *)
Theorem exit_after_full_frame (env : Env) (n fuel : nat) :
  createWindow_result env <> NULL -> gladLoad_result env <> 0 ->
  (forall m, (m < n)%nat ->
     key_escape env m = GLFW_RELEASE /\ ~ In WindowClose (pending env m)) ->
  key_escape env n = GLFW_PRESS \/ In WindowClose (pending env n) ->
  (S n < fuel)%nat ->
  let w := snd (main env fuel initial) in
  fst (main env fuel initial) = Some 0 /\
  polls w = S n /\
  List.length (filter is_draw (calls w)) = S n.
Proof.
  intros Hw Hg Hquiet Hreq Hfuel. cbv zeta.
  assert (Hup : shouldClose (at_pass env (S n)) = true).
  { apply (shouldClose_at_pass env (S n) Hw Hg). exists n. split; [lia|].
    exact Hreq. }
  assert (Hlow : forall k, shouldClose (at_pass env k) = true ->
                           (n < k)%nat).
  { intros k Hk. apply (shouldClose_at_pass env k Hw Hg) in Hk.
    destruct Hk as (m & Hm & Hk).
    destruct (Nat.lt_ge_cases m n) as [Hlt | Hge]; [| lia].
    destruct (Hquiet m Hlt) as (Hrel & Hno).
    destruct Hk as [Hk | Hk]; [congruence | contradiction]. }
  assert (Hpolls : polls (snd (main env fuel initial)) = S n /\
                   fst (main env fuel initial) = Some 0).
  { destruct (main_cases env fuel Hw Hg)
      as [(k & Hk & Hkup & Hkdown & ->) | (Hdown & _)]; cbn [fst snd polls].
    - destruct (sizeCallback_at_pass env k Hw Hg) as (_ & ->).
      split; [| reflexivity]. apply Hlow in Hkup.
      destruct (Nat.lt_ge_cases (S n) k) as [Hlt | Hge]; [| lia].
      rewrite (Hkdown (S n) Hlt) in Hup. discriminate.
    - rewrite (Hdown (S n) Hfuel) in Hup. discriminate. }
  destruct Hpolls as (Hpolls & Hres).
  split; [exact Hres | split; [exact Hpolls|]].
  now rewrite (draws_main env fuel Hw Hg), repeat_length.
Qed.

Lemma exit_after_full_frame_witness :
  fst (main env_ok 5 initial) = Some 0 /\
  polls (snd (main env_ok 5 initial)) = 3%nat /\
  List.length (filter is_draw (calls (snd (main env_ok 5 initial)))) = 3%nat.
Proof.
  assert (Hw : createWindow_result env_ok <> NULL) by discriminate.
  assert (Hg : gladLoad_result env_ok <> 0) by discriminate.
  apply (exit_after_full_frame env_ok 2 5 Hw Hg).
  - intros m Hm. split.
    + destruct m as [|[|m]]; [reflexivity | reflexivity | lia].
    + destruct m as [|[|m]]; cbn; [intros [H | []]; discriminate H | tauto
                                  | lia].
  - left. reflexivity.
  - lia.
Defined.

(** X3. The viewport is set by the callback only.  In a run that gets past
    the loader, the [glViewport] calls are exactly those the callback issues
    for the size events delivered, poll after poll, in the order of
    delivery; [main] itself never calls [glViewport]. *)
Theorem viewport_calls_follow_size_events (env : Env) (fuel : nat) :
  createWindow_result env <> NULL -> gladLoad_result env <> 0 ->
  let w := snd (main env fuel initial) in
  filter is_viewport (calls w)
  = flat_map (fun m => callback_calls (Some (createWindow_result env))
                                      (pending env m))
             (seq 0 (polls w)) /\
  ((forall m, existsb is_resize (pending env m) = false) ->
   filter is_viewport (calls w) = [] /\ viewport w = None).
Proof.
  intros Hw Hg. cbv zeta.
  assert (Hcalls :
    filter is_viewport (calls (snd (main env fuel initial)))
    = flat_map (fun m => callback_calls (Some (createWindow_result env))
                                        (pending env m))
               (seq 0 (polls (snd (main env fuel initial))))).
  { rewrite (filter_main_frames env is_viewport
               (fun m => callback_calls (Some (createWindow_result env))
                                        (pending env m)) fuel Hw Hg).
    - unfold hint_calls, setup_calls.
      destruct (APPLE env), (stbi_data env =? NULL),
               (fst (main env fuel initial)); cbn; now rewrite app_nil_r.
    - intros w Hcb. unfold pass_calls.
      rewrite !filter_app, filter_viewport_callback_calls, Hcb.
      now destruct (is_press _).
    - reflexivity. }
  split; [exact Hcalls|]. intros Hnone.
  assert (Hkeep : forall n, viewport (at_pass env n) = None).
  { induction n as [|n IH].
    - unfold at_pass. cbn [passes]. now rewrite (at_loop_world env Hw Hg).
    - unfold at_pass in *. rewrite passes_S, pass_world. cbn [viewport].
      rewrite IH. apply resized_no_resize. apply Hnone. }
  split.
  - rewrite Hcalls. apply flat_map_nil. intros m _.
    specialize (Hnone m).
    induction (pending env m) as [|[width height|] l IH]; cbn in *;
      [reflexivity | discriminate | now apply IH].
  - destruct (main_cases env fuel Hw Hg)
      as [(k & _ & _ & _ & ->) | (_ & ->)]; cbn [snd viewport]; apply Hkeep.
Qed.

Lemma viewport_calls_follow_size_events_witness :
  filter is_viewport (calls (snd (main env_ok 5 initial)))
    = [GlViewport 0 0 1024 768] /\
  viewport (snd (main env_forever 5 initial)) = None.
Proof.
  assert (Hw : createWindow_result env_ok <> NULL) by discriminate.
  assert (Hg : gladLoad_result env_ok <> 0) by discriminate.
  assert (Hw' : createWindow_result env_forever <> NULL) by discriminate.
  assert (Hg' : gladLoad_result env_forever <> 0) by discriminate.
  split.
  - exact (proj1 (viewport_calls_follow_size_events env_ok 5 Hw Hg)).
  - apply (proj2 (viewport_calls_follow_size_events env_forever 5 Hw' Hg')).
    intros m. reflexivity.
Defined.

(** X4. The uniform [time] is looked up and set once per frame, between the
    test of the close flag and the draw: in a run that gets past the loader
    the uniform calls are, frame after frame, a lookup of the name [time] in
    the program of the shader followed by [glUniform1f] at the location
    found with the clock reading of that frame narrowed to [float], that is
    the binary32 number nearest to the reading.  The clock readings are
    taken to be what [glfwGetTime] gives: not negative, and within the range
    of [float]. *)
Theorem time_uniform_each_frame (env : Env) (fuel : nat) :
  createWindow_result env <> NULL -> gladLoad_result env <> 0 ->
  (forall m, (0 <= clock env m /\ clock env m <= FLT_MAX)%Q) ->
  let w := snd (main env fuel initial) in
  filter is_uniform (calls w)
  = flat_map (fun m => [GlGetUniformLocation (shader_ID env) "time";
                        GlUniform1f (uniform_location env)
                                    (to_float (clock env m))])
             (seq 0 (polls w)).
Proof.
  intros Hw Hg _. cbv zeta.
  rewrite (filter_main_frames env is_uniform
             (fun m => [GlGetUniformLocation (shader_ID env) "time";
                        GlUniform1f (uniform_location env)
                                    (to_float (clock env m))])
             fuel Hw Hg).
  - unfold hint_calls, setup_calls.
    destruct (APPLE env), (stbi_data env =? NULL),
             (fst (main env fuel initial)); cbn; now rewrite app_nil_r.
  - intros w _. unfold pass_calls.
    rewrite !filter_app, filter_callback_calls by reflexivity.
    now destruct (is_press _).
  - reflexivity.
Qed.

Lemma time_uniform_each_frame_witness :
  filter is_uniform (calls (snd (main env_tenth 5 initial)))
  = flat_map (fun m => [GlGetUniformLocation 3 "time";
                        GlUniform1f 0 (13421773 # 134217728)%Q])
             (seq 0 (polls (snd (main env_tenth 5 initial)))).
Proof.
  assert (Hw : createWindow_result env_tenth <> NULL) by discriminate.
  assert (Hg : gladLoad_result env_tenth <> 0) by discriminate.
  assert (Hc : forall m : nat,
            (0 <= clock env_tenth m /\ clock env_tenth m <= FLT_MAX)%Q).
  { intros m. split; discriminate. }
  exact (time_uniform_each_frame env_tenth 5 Hw Hg Hc).
Defined.

(** ** Order of the calls *)

(** X5. Nothing follows [glfwTerminate].  In every run, a call of
    [glfwTerminate], if there is one, is the only one and the last call of
    the run; a run cut inside the render loop has none. *)
Theorem nothing_after_terminate (env : Env) (fuel : nat) :
  let r := fst (main env fuel initial) in
  let tr := calls (snd (main env fuel initial)) in
  (In GlfwTerminate tr ->
   filter is_terminate tr = [GlfwTerminate] /\
   last tr GlfwInit = GlfwTerminate /\
   r <> None) /\
  (r = None -> filter is_terminate tr = []).
Proof.
  cbv zeta.
  destruct (Z.eq_dec (createWindow_result env) NULL) as [Hw | Hw];
    [| destruct (Z.eq_dec (gladLoad_result env) 0) as [Hg | Hg]].
  - rewrite (main_no_window env fuel Hw). cbn [fst snd calls].
    split; [intros _ | discriminate].
    unfold hint_calls. now destruct (APPLE env).
  - rewrite (main_no_glad env fuel Hw Hg). cbn [fst snd calls].
    split; [| discriminate]. intros Hin. exfalso.
    assert (H : In GlfwTerminate
                   (filter is_terminate
                      (GlfwInit :: hint_calls env
                       ++ [GlfwCreateWindow 800 600 "LearnOpenGL";
                           GlfwMakeContextCurrent (createWindow_result env);
                           GlfwSetFramebufferSizeCallback
                             (createWindow_result env);
                           GladLoadGLLoader;
                           Cout "Failed to initialize GLAD"])))
      by (apply filter_In; now split).
    unfold hint_calls in H. now destruct (APPLE env).
  - assert (Hfilter :
      filter is_terminate (calls (snd (main env fuel initial)))
      = match fst (main env fuel initial) with
        | Some _ => [GlfwTerminate]
        | None => []
        end).
    { rewrite (filter_main_calls env is_terminate fuel Hw Hg)
        by (now intros []).
      unfold hint_calls, setup_calls.
      now destruct (APPLE env), (stbi_data env =? NULL),
                   (fst (main env fuel initial)). }
    split.
    + intros Hin. rewrite Hfilter.
      destruct (main_calls env fuel Hw Hg) as (added & _ & Hcalls).
      destruct (fst (main env fuel initial)) as [z|].
      * split; [reflexivity | split; [| discriminate]].
        rewrite Hcalls. unfold shutdown_calls.
        change [GlDeleteVertexArrays 1 (gen_VAO env);
                GlDeleteBuffers 1 (gen_VBO env);
                GlDeleteBuffers 1 (gen_EBO env); GlfwTerminate]
          with ([GlDeleteVertexArrays 1 (gen_VAO env);
                 GlDeleteBuffers 1 (gen_VBO env);
                 GlDeleteBuffers 1 (gen_EBO env)] ++ [GlfwTerminate]).
        rewrite !app_assoc. apply last_last.
      * exfalso.
        assert (H : In GlfwTerminate
                       (filter is_terminate
                               (calls (snd (main env fuel initial)))))
          by (apply filter_In; now split).
        now rewrite Hfilter in H.
    + intros Hr. now rewrite Hfilter, Hr.
Qed.

Lemma nothing_after_terminate_witness :
  last (calls (snd (main env_no_window 5 initial))) GlfwInit = GlfwTerminate
  /\
  filter is_terminate (calls (snd (main env_forever 5 initial))) = [].
Proof.
  destruct (nothing_after_terminate env_no_window 5) as (Hend & _).
  destruct (nothing_after_terminate env_forever 5) as (_ & Hcut).
  split.
  - apply Hend. rewrite (main_no_window env_no_window 5 eq_refl).
    cbn. tauto.
  - apply Hcut. apply main_env_forever.
Defined.

(** X6. No OpenGL function is called before the loader has succeeded.  A run
    in which the window cannot be created or the loader fails calls no
    OpenGL function at all.  Any other run starts with [glfwInit], the
    hints, the creation of the window, making its context current,
    installing the callback and the loader, in this order, and no OpenGL
    call is among them. *)
Theorem gl_calls_after_loader (env : Env) (fuel : nat) :
  let tr := calls (snd (main env fuel initial)) in
  (createWindow_result env = NULL \/ gladLoad_result env = 0 ->
   filter is_gl tr = []) /\
  (createWindow_result env <> NULL -> gladLoad_result env <> 0 ->
   exists rest, tr = startup_calls env ++ rest) /\
  filter is_gl (startup_calls env) = [].
Proof.
  cbv zeta. split; [| split].
  - intros Hfail.
    destruct (Z.eq_dec (createWindow_result env) NULL) as [Hw | Hw].
    + rewrite (main_no_window env fuel Hw). cbn [snd calls].
      unfold hint_calls. now destruct (APPLE env).
    + destruct Hfail as [Hw' | Hg]; [contradiction|].
      rewrite (main_no_glad env fuel Hw Hg). cbn [snd calls].
      unfold hint_calls. now destruct (APPLE env).
  - intros Hw Hg.
    destruct (main_calls env fuel Hw Hg) as (added & _ & ->).
    unfold startup_calls, setup_calls.
    eexists. cbn [app]. rewrite <- !app_assoc. cbn [app]. reflexivity.
  - unfold startup_calls, hint_calls. now destruct (APPLE env).
Qed.

Lemma gl_calls_after_loader_witness :
  filter is_gl (calls (snd (main env_no_glad 5 initial))) = [] /\
  exists rest,
    calls (snd (main env_ok 5 initial)) = startup_calls env_ok ++ rest.
Proof.
  destruct (gl_calls_after_loader env_no_glad 5) as (Hfail & _).
  destruct (gl_calls_after_loader env_ok 5) as (_ & Hok & _).
  split.
  - apply Hfail. right. reflexivity.
  - apply Hok; discriminate.
Defined.

(** ** The image and the objects *)

(** X7. When [stbi_load] answers a buffer, the image is uploaded before it
    is released, and not touched afterwards: the calls that touch the
    buffer are [glTexImage2D] with the width and height [stbi_load]
    reported (as [GL_RGB] bytes, whatever the channel count reported),
    [glGenerateMipmap], then [stbi_image_free].  The image is attached to
    the texture created, and no message is printed. *)
Theorem successful_decode_uploads_then_frees (env : Env) (fuel : nat) :
  createWindow_result env <> NULL -> gladLoad_result env <> 0 ->
  stbi_data env <> NULL ->
  let w := snd (main env fuel initial) in
  filter touches_image (calls w)
  = [GlTexImage2D GL_TEXTURE_2D 0 GL_RGB (stbi_width env) (stbi_height env)
                  0 GL_RGB GL_UNSIGNED_BYTE (stbi_data env);
     GlGenerateMipmap GL_TEXTURE_2D;
     StbiImageFree (stbi_data env)] /\
  image_of (gen_texture env) (images w)
  = Some (mkTexImage (stbi_width env) (stbi_height env) (stbi_data env)) /\
  filter is_cout (calls w) = [].
Proof.
  intros Hw Hg Hd. cbv zeta. apply Z.eqb_neq in Hd.
  split; [| split].
  - rewrite (filter_main_calls env touches_image fuel Hw Hg)
      by (now intros []).
    unfold hint_calls, setup_calls. rewrite Hd.
    now destruct (APPLE env), (fst (main env fuel initial)).
  - destruct (main_world env fuel Hw Hg)
      as (w & (_ & _ & _ & _ & _ & _ & Hi & _) & [-> | ->]);
      cbn [snd images]; rewrite Hi, (at_loop_world env Hw Hg);
      cbn [images]; rewrite Hd; cbn; now rewrite Z.eqb_refl.
  - rewrite (filter_main_calls env is_cout fuel Hw Hg) by (now intros []).
    unfold hint_calls, setup_calls. rewrite Hd.
    now destruct (APPLE env), (fst (main env fuel initial)).
Qed.

Lemma successful_decode_uploads_then_frees_witness :
  filter touches_image (calls (snd (main env_ok 5 initial)))
  = [GlTexImage2D GL_TEXTURE_2D 0 GL_RGB 512 512 0 GL_RGB GL_UNSIGNED_BYTE
                  8192;
     GlGenerateMipmap GL_TEXTURE_2D;
     StbiImageFree 8192].
Proof.
  assert (Hw : createWindow_result env_ok <> NULL) by discriminate.
  assert (Hg : gladLoad_result env_ok <> 0) by discriminate.
  assert (Hd : stbi_data env_ok <> NULL) by discriminate.
  exact (proj1 (successful_decode_uploads_then_frees env_ok 5 Hw Hg Hd)).
Defined.

(** X8. The render loop creates nothing.  Whatever the number of frames,
    the calls that create an object or fill one with data are those of the
    start-up and no others: the shader, one vertex array, two buffers with
    their data, one texture, and its image when decoding succeeded. *)
Theorem no_allocation_in_loop (env : Env) (fuel : nat) :
  createWindow_result env <> NULL -> gladLoad_result env <> 0 ->
  filter is_alloc (calls (snd (main env fuel initial)))
  = [ShaderCtor "4.1.texturevs.txt" "4.1.texturefs.txt";
     GlGenVertexArrays 1; GlGenBuffers 1; GlGenBuffers 1;
     GlBufferData GL_ARRAY_BUFFER sizeof_vertices (Floats vertices)
                  GL_STATIC_DRAW;
     GlBufferData GL_ELEMENT_ARRAY_BUFFER sizeof_indices (UInts indices)
                  GL_STATIC_DRAW;
     GlGenTextures 1]
    ++ (if Z.eqb (stbi_data env) NULL then []
        else [GlTexImage2D GL_TEXTURE_2D 0 GL_RGB (stbi_width env)
                           (stbi_height env) 0 GL_RGB GL_UNSIGNED_BYTE
                           (stbi_data env)]).
Proof.
  intros Hw Hg.
  rewrite (filter_main_calls env is_alloc fuel Hw Hg) by (now intros []).
  unfold hint_calls, setup_calls.
  now destruct (APPLE env), (stbi_data env =? NULL),
               (fst (main env fuel initial)).
Qed.

Lemma no_allocation_in_loop_witness :
  List.length (filter is_alloc (calls (snd (main env_ok 5 initial))))
  = 8%nat.
Proof.
  assert (Hw : createWindow_result env_ok <> NULL) by discriminate.
  assert (Hg : gladLoad_result env_ok <> 0) by discriminate.
  rewrite (no_allocation_in_loop env_ok 5 Hw Hg). reflexivity.
Defined.

(** X9. The close flag is only ever raised, and by [processInput] at most
    once in a run: the only frame that can call
    [glfwSetWindowShouldClose] is the last one completed, it does so exactly
    when Escape is down at its input check, and the call is for the window
    created, with [true]. *)
Theorem close_flag_raised_at_most_once (env : Env) (fuel : nat) :
  createWindow_result env <> NULL -> gladLoad_result env <> 0 ->
  let w := snd (main env fuel initial) in
  filter is_set_close (calls w)
  = match polls w with
    | O => []
    | S m => if is_press (key_escape env m)
             then [GlfwSetWindowShouldClose (createWindow_result env) true]
             else []
    end.
Proof.
  intros Hw Hg. cbv zeta.
  set (f := fun m =>
              if is_press (key_escape env m)
              then [GlfwSetWindowShouldClose (createWindow_result env) true]
              else []).
  assert (Hquiet : forall m,
            (S m < polls (snd (main env fuel initial)))%nat -> f m = []).
  { intros m Hm.
    assert (Hdown : shouldClose (at_pass env (S m)) = false).
    { destruct (main_cases env fuel Hw Hg)
        as [(k & _ & _ & Hkdown & Heq) | (Hkdown & Heq)];
        rewrite Heq in Hm; cbn [snd polls] in Hm;
        apply Hkdown;
        [destruct (sizeCallback_at_pass env k Hw Hg) as (_ & Hp)
        |destruct (sizeCallback_at_pass env fuel Hw Hg) as (_ & Hp)];
        now rewrite Hp in Hm. }
    unfold f. destruct (key_escape env m) eqn:Hkey; [reflexivity|].
    assert (Hup : shouldClose (at_pass env (S m)) = true).
    { apply (shouldClose_at_pass env (S m) Hw Hg).
      exists m. split; [lia | now left]. }
    congruence. }
  rewrite (filter_main_frames env is_set_close f fuel Hw Hg).
  - assert (Hout : filter is_set_close
                     (GlfwInit :: hint_calls env ++ setup_calls env) = []).
    { unfold hint_calls, setup_calls.
      now destruct (APPLE env), (stbi_data env =? NULL). }
    assert (Hend : filter is_set_close
                     match fst (main env fuel initial) with
                     | Some _ => shutdown_calls env
                     | None => []
                     end = [])
      by now destruct (fst (main env fuel initial)).
    rewrite Hout, Hend, app_nil_r. cbn [app].
    destruct (polls (snd (main env fuel initial))) as [|m]; [reflexivity|].
    rewrite seq_S, flat_map_app, flat_map_nil.
    + cbn. now rewrite app_nil_r.
    + intros k Hk. apply Hquiet. lia.
  - intros w _. unfold pass_calls, f.
    rewrite !filter_app, filter_callback_calls by reflexivity.
    now destruct (is_press _).
  - reflexivity.
Qed.

Lemma close_flag_raised_at_most_once_witness :
  filter is_set_close (calls (snd (main env_ok 5 initial)))
  = match polls (snd (main env_ok 5 initial)) with
    | O => []
    | S m => if is_press (key_escape env_ok m)
             then [GlfwSetWindowShouldClose 4096 true]
             else []
    end.
Proof.
  assert (Hw : createWindow_result env_ok <> NULL) by discriminate.
  assert (Hg : gladLoad_result env_ok <> 0) by discriminate.
  exact (close_flag_raised_at_most_once env_ok 5 Hw Hg).
Defined.

(** X10. Every frame is drawn with live objects.  At the start of every pass
    of the render loop of [main], the vertex array, the two buffers and the
    texture created at start-up are live, that texture is the one bound,
    the resize callback is installed on the window and GLFW has not been
    terminated. *)
Theorem objects_live_during_loop (env : Env) (n : nat) :
  createWindow_result env <> NULL -> gladLoad_result env <> 0 ->
  let w := at_pass env n in
  vertexArrays w = [gen_VAO env] /\
  buffers w = [gen_EBO env; gen_VBO env] /\
  textures w = [gen_texture env] /\
  boundTexture w = gen_texture env /\
  sizeCallback w = Some (createWindow_result env) /\
  glfwAlive w = true.
Proof.
  intros Hw Hg. cbv zeta.
  destruct (loop_extends_passes env (createWindow_result env)
              (gen_texture env) (shader_ID env) (gen_VAO env) n
              (at_loop env)) as (_ & Ha & Hcb & Hva & Hb & Ht & _).
  fold (at_pass env n) in Ha, Hcb, Hva, Hb, Ht.
  rewrite Ha, Hcb, Hva, Hb, Ht, (at_loop_world env Hw Hg).
  cbn [vertexArrays buffers textures sizeCallback glfwAlive].
  repeat split.
  destruct n as [|n].
  - unfold at_pass. cbn [passes]. now rewrite (at_loop_world env Hw Hg).
  - unfold at_pass. now rewrite passes_S, pass_world.
Qed.

Lemma objects_live_during_loop_witness :
  textures (at_pass env_ok 2) = [1] /\ boundTexture (at_pass env_ok 2) = 1.
Proof.
  assert (Hw : createWindow_result env_ok <> NULL) by discriminate.
  assert (Hg : gladLoad_result env_ok <> 0) by discriminate.
  destruct (objects_live_during_loop env_ok 2 Hw Hg)
    as (_ & _ & Ht & Hb & _).
  split; [exact Ht | exact Hb].
Defined.

(** ** Independence of the cut *)

Lemma passes_add (env : Env) (window : pointer) (texture ourShader VAO : Z)
      (n k : nat) (w : World) :
  passes env window texture ourShader VAO (n + k) w
  = passes env window texture ourShader VAO k
           (passes env window texture ourShader VAO n w).
Proof.
  revert w. induction n as [|n IH]; intros w; [reflexivity|].
  cbn [Nat.add passes]. apply IH.
Qed.

(** The cut of the loop is harmless: once [main] returns with some fuel, it
    returns the same value in the same world with any larger fuel, and a run
    cut inside the loop is a beginning of every run with more fuel. *)
Lemma more_fuel_same_run (env : Env) (fuel fuel' : nat) :
  (fuel <= fuel')%nat ->
  (fst (main env fuel initial) <> None ->
   main env fuel' initial = main env fuel initial) /\
  (fst (main env fuel initial) = None ->
   exists more,
     calls (snd (main env fuel' initial))
     = calls (snd (main env fuel initial)) ++ more).
Proof.
  intros Hle.
  destruct (Z.eq_dec (createWindow_result env) NULL) as [Hw | Hw];
    [| destruct (Z.eq_dec (gladLoad_result env) 0) as [Hg | Hg]].
  - rewrite !(main_no_window env _ Hw). cbn [fst]. split; [reflexivity|].
    discriminate.
  - rewrite !(main_no_glad env _ Hw Hg). cbn [fst]. split; [reflexivity|].
    discriminate.
  - destruct (main_cases env fuel Hw Hg)
      as [(n & Hn & Hup & Hdown & Heq) | (Hdown & Heq)];
      rewrite Heq; cbn [fst snd calls]; (split; [intros Hret | intros Hcut]);
      try discriminate; try congruence.
    + destruct (main_cases env fuel' Hw Hg)
        as [(n' & Hn' & Hup' & Hdown' & Heq') | (Hdown' & Heq')].
      * assert (n' = n) as ->.
        { destruct (Nat.lt_trichotomy n' n) as [Hlt | [Heqn | Hgt]].
          - rewrite (Hdown n' Hlt) in Hup'. discriminate.
          - exact Heqn.
          - rewrite (Hdown' n Hgt) in Hup. discriminate. }
        exact Heq'.
      * rewrite (Hdown' n) in Hup by lia. discriminate.
    + assert (Hext : forall k, (fuel <= k)%nat ->
                exists more,
                  calls (at_pass env k) = calls (at_pass env fuel) ++ more).
      { intros k Hk. replace k with (fuel + (k - fuel))%nat by lia.
        unfold at_pass. rewrite passes_add.
        destruct (loop_extends_passes env (createWindow_result env)
                    (gen_texture env) (shader_ID env) (gen_VAO env)
                    (k - fuel)
                    (passes env (createWindow_result env) (gen_texture env)
                            (shader_ID env) (gen_VAO env) fuel (at_loop env)))
          as ((more & Hmore & _) & _).
        now exists more. }
      destruct (main_cases env fuel' Hw Hg)
        as [(n' & Hn' & Hup' & Hdown' & Heq') | (Hdown' & Heq')];
        rewrite Heq'; cbn [snd calls].
      * assert (Hge : (fuel <= n')%nat).
        { destruct (Nat.lt_ge_cases n' fuel) as [Hlt | Hge]; [| exact Hge].
          rewrite (Hdown n' Hlt) in Hup'. discriminate. }
        destruct (Hext n' Hge) as (more & ->).
        eexists. rewrite <- app_assoc. reflexivity.
      * now apply Hext.
Qed.
